(** * ai-workflow.ipynb: the article summarizer notebook

    A shallow embedding of the notebook's cells: the [SummarySchema] record
    and its [datePublished] validator, the one-node agent graph built by
    [get_article_extractor], the page fetch [page2string], the batch runner
    [stream_and_pretty_print] and the unit runner [summarize_article].

    The notebook is glue over three libraries.  Their behaviour is modelled
    in the modules [PyDatetime] (CPython 3.11 [datetime]), [Pydantic] (model
    validation and JSON dumping) and [LangGraph] (the graph builder and its
    runtime); the notebook's own cells are in the section [Notebook]. *)

From Stdlib Require Import ZArith Ascii String List Bool Lia.
From stdpp Require Import gmap strings list.

(** ** Python values shared by all cells *)

(** A [str] is kept as the bytes of its UTF-8 encoding, [bytes] as the bytes
    themselves. *)
Definition bytes := string.

(** The exceptions that occur in the notebook.  [OtherError] stands for
    whatever an external call raises (a [requests] exception, an Ollama
    client error, an output-parser error). *)
Inductive exn : Type :=
  | ValueError (msg : string)
  | ValidationError (errors : list (string * string))
  | KeyError (key : string)
  | IndexError (msg : string)
  | GraphRecursionError
  | OtherError (name : string) (msg : string).

(** The outcome of a Python call: a value or a raised exception. *)
Inductive result (A : Type) : Type :=
  | Ok (a : A)
  | Raise (e : exn).
Arguments Ok {A} a.
Arguments Raise {A} e.

Definition is_ok {A} (r : result A) : bool :=
  match r with Ok _ => true | Raise _ => false end.

Definition is_value_error {A} (r : result A) : bool :=
  match r with Raise (ValueError _) => true | _ => false end.

Definition LF : ascii := ascii_of_nat 10.
Definition QUOTE : ascii := ascii_of_nat 34.
Definition APOSTROPHE : ascii := ascii_of_nat 39.
Definition BACKSLASH : ascii := ascii_of_nat 92.

Definition str_of (c : ascii) : string := String c EmptyString.

(** A chat message of [langchain_core.messages]. *)
Inductive message_type : Type := human | ai | system.

Record message : Type := mk_message {
  type : message_type;
  content : string
}.

Definition HumanMessage (content : string) : message := mk_message human content.
Definition AIMessage (content : string) : message := mk_message ai content.
Definition SystemMessage (content : string) : message := mk_message system content.

(** A [ChatOllama] client: the configuration [get_model] fixes.  The
    temperature is kept as a decimal numeral. *)
Record ChatOllama : Type := mk_ChatOllama {
  model : string;
  temperature : string;
  base_url : string
}.

(** ** Effects

    What a cell does besides computing a value: the HTTP fetch, the call to
    the language model and the output it prints.  A computation is the list
    of the events it performed, in order, and its outcome. *)
Inductive event : Type :=
  | HttpGet (url : string)
  | ModelInvoke (client : ChatOllama) (input : list message)
  | Print (text : string)
  | PrettyPrint (m : message).

Definition M (A : Type) : Type := (list event * result A)%type.

Definition ret {A} (a : A) : M A := ([], Ok a).
Definition raise {A} (e : exn) : M A := ([], Raise e).
Definition lift {A} (r : result A) : M A := ([], r).
Definition emit (ev : event) : M unit := ([ev], Ok tt).

Definition bind {A B} (m : M A) (k : A -> M B) : M B :=
  match m with
  | (t, Ok a) => (t ++ fst (k a), snd (k a))
  | (t, Raise e) => (t, Raise e)
  end.

Notation "'perform' x <- m ;; k" := (bind m (fun x => k))
  (at level 10, x name, m at level 99, k at level 200).
Notation "'exec' m ;; k" := (bind m (fun _ => k))
  (at level 10, m at level 99, k at level 200).

Definition trace {A} (m : M A) : list event := fst m.
Definition outcome {A} (m : M A) : result A := snd m.

(** [for x in l: body(x)] *)
Fixpoint for_each {A} (l : list A) (body : A -> M unit) : M unit :=
  match l with
  | [] => ret tt
  | x :: r => exec body x ;; for_each r body
  end.

(** ** CPython 3.11 [datetime]: [fromisoformat] and [strftime]

    [datetime.fromisoformat] is the parser of the interpreter the notebook
    declares (Python 3.11).  The functions keep the names of the
    interpreter's implementation; a string is read the way the interpreter
    reads it, as a NUL-terminated UTF-8 buffer indexed by byte. *)
Module PyDatetime.

Local Open Scope Z_scope.

Definition NUL : ascii := ascii_of_nat 0.

(** [dtstr[i]]; one past the last byte is the terminating NUL. *)
Definition at_ (s : string) (i : nat) : ascii :=
  match String.get i s with
  | Some c => c
  | None => NUL
  end.

Definition is_digit (c : ascii) : bool :=
  ((48 <=? nat_of_ascii c)%nat && (nat_of_ascii c <=? 57)%nat)%bool.

Definition is_char (c : ascii) (n : nat) : bool := (nat_of_ascii c =? n)%nat.

Definition DASH : nat := 45.
Definition WEEK : nat := 87.
Definition COLON : nat := 58.
Definition DOT : nat := 46.
Definition COMMA : nat := 44.
Definition PLUS : nat := 43.
Definition ZULU : nat := 90.

(** The number of code points of a UTF-8 string: its bytes that are not
    continuation bytes. *)
Fixpoint utf8_length (s : string) : nat :=
  match s with
  | EmptyString => O
  | String c r =>
      if ((128 <=? nat_of_ascii c)%nat && (nat_of_ascii c <? 192)%nat)%bool
      then utf8_length r else S (utf8_length r)
  end.

(** [parse_digits(ptr, var, num_digits)]: reads exactly [num_digits] ASCII
    digits at [p], accumulating into [var]; any other byte fails. *)
Fixpoint parse_digits (s : string) (p : nat) (var : Z) (num_digits : nat)
  : option (nat * Z) :=
  match num_digits with
  | O => Some (p, var)
  | S k =>
      let c := at_ s p in
      if is_digit c
      then parse_digits s (S p) (var * 10 + (Z.of_nat (nat_of_ascii c) - 48)) k
      else None
  end.

(** *** The proleptic Gregorian calendar *)

Definition MINYEAR : Z := 1.
Definition MAXYEAR : Z := 9999.

Definition _DAYS_IN_MONTH : list Z :=
  [-1; 31; 28; 31; 30; 31; 30; 31; 31; 30; 31; 30; 31].

Definition _DAYS_BEFORE_MONTH : list Z :=
  [-1; 0; 31; 59; 90; 120; 151; 181; 212; 243; 273; 304; 334].

Definition _is_leap (year : Z) : bool :=
  ((year mod 4 =? 0) && (negb (year mod 100 =? 0) || (year mod 400 =? 0)))%bool.

Definition _days_before_year (year : Z) : Z :=
  let y := year - 1 in
  y * 365 + y / 4 - y / 100 + y / 400.

Definition _days_in_month (year month : Z) : Z :=
  if ((month =? 2) && _is_leap year)%bool then 29
  else nth (Z.to_nat month) _DAYS_IN_MONTH (-1).

Definition _days_before_month (year month : Z) : Z :=
  nth (Z.to_nat month) _DAYS_BEFORE_MONTH (-1)
  + (if ((2 <? month) && _is_leap year)%bool then 1 else 0).

Definition _ymd2ord (year month day : Z) : Z :=
  _days_before_year year + _days_before_month year month + day.

Definition _DI400Y : Z := _days_before_year 401.
Definition _DI100Y : Z := _days_before_year 101.
Definition _DI4Y : Z := _days_before_year 5.

Definition _ord2ymd (n0 : Z) : Z * Z * Z :=
  let n := n0 - 1 in
  let n400 := n / _DI400Y in
  let n := n mod _DI400Y in
  let year := n400 * 400 + 1 in
  let n100 := n / _DI100Y in
  let n := n mod _DI100Y in
  let n4 := n / _DI4Y in
  let n := n mod _DI4Y in
  let n1 := n / 365 in
  let n := n mod 365 in
  let year := year + n100 * 100 + n4 * 4 + n1 in
  if ((n1 =? 4) || (n100 =? 4))%bool then (year - 1, 12, 31)
  else
    let leapyear := ((n1 =? 3) && (negb (n4 =? 24) || (n100 =? 3)))%bool in
    let month := Z.shiftr (n + 50) 5 in
    let preceding :=
      nth (Z.to_nat month) _DAYS_BEFORE_MONTH (-1)
      + (if ((2 <? month) && leapyear)%bool then 1 else 0) in
    if n <? preceding
    then
      let month := month - 1 in
      let preceding :=
        preceding
        - (if ((month =? 2) && leapyear)%bool then 29
           else nth (Z.to_nat month) _DAYS_IN_MONTH (-1)) in
      (year, month, n - preceding + 1)
    else (year, month, n - preceding + 1).

Definition _isoweek1monday (year : Z) : Z :=
  let THURSDAY := 3 in
  let firstday := _ymd2ord year 1 1 in
  let firstweekday := (firstday + 6) mod 7 in
  let week1monday := firstday - firstweekday in
  if THURSDAY <? firstweekday then week1monday + 7 else week1monday.

(** ISO year, week and weekday to year, month and day; [None] is the
    [ValueError] of a year, week or weekday out of range. *)
Definition _isoweek_to_gregorian (year week day : Z) : option (Z * Z * Z) :=
  if negb ((MINYEAR <=? year) && (year <=? MAXYEAR))%bool then None
  else
    let out_of_range :=
      if ((0 <? week) && (week <? 53))%bool then false
      else if week =? 53
           then
             let first_weekday := (_ymd2ord year 1 1) mod 7 in
             negb ((first_weekday =? 4)
                   || ((first_weekday =? 3) && _is_leap year))%bool
           else true in
    if out_of_range then None
    else if negb ((0 <? day) && (day <? 8))%bool then None
    else
      let day_offset := (week - 1) * 7 + (day - 1) in
      let day_1 := _isoweek1monday year in
      Some (_ord2ymd (day_1 + day_offset)).

(** *** Splitting the date from the time *)

(** Index of the first non-digit byte at or after [idx], stopping at [len]. *)
Fixpoint scan_digits (s : string) (idx : nat) (len : nat) (fuel : nat) : nat :=
  match fuel with
  | O => idx
  | S k =>
      if ((idx <? len)%nat && is_digit (at_ s idx))%bool
      then scan_digits s (S idx) len k
      else idx
  end.

(** Where the separator between date and time sits; -1 for a string that
    cannot be split.  [len] is never below 7 here. *)
Definition _find_isoformat_datetime_separator (dtstr : string) (len : nat) : Z :=
  if (len =? 7)%nat then 7
  else if is_char (at_ dtstr 4) DASH then
    if is_char (at_ dtstr 5) WEEK then
      if (len <? 8)%nat then -1
      else if ((8 <? len)%nat && is_char (at_ dtstr 8) DASH)%bool then
        if (len =? 9)%nat then -1
        else if ((10 <? len)%nat && is_digit (at_ dtstr 10))%bool then 8
        else 10
      else 8
    else 10
  else if is_char (at_ dtstr 4) WEEK then
    let idx := scan_digits dtstr 7 len len in
    if (idx <? 9)%nat then Z.of_nat idx
    else if Nat.even idx then 7 else 8
  else 8.

(** [(size_t)p < len] where [len] arrives as a signed separator location:
    -1 converts to the largest [size_t]. *)
Definition size_t_lt (p : nat) (len : Z) : bool :=
  if len <? 0 then true else Z.of_nat p <? len.

(** The date part, in one of YYYY-MM-DD, YYYYMMDD, YYYY-Www, YYYYWww,
    YYYY-Www-D, YYYYWwwD.  [None] is any of the negative return codes. *)
Definition parse_isoformat_date (dtstr : string) (len : Z) : option (Z * Z * Z) :=
  match parse_digits dtstr 0 0 4 with
  | None => None
  | Some (p, year) =>
      let uses_separator := is_char (at_ dtstr p) DASH in
      let p := if uses_separator then S p else p in
      if is_char (at_ dtstr p) WEEK then
        match parse_digits dtstr (S p) 0 2 with
        | None => None
        | Some (p, iso_week) =>
            if size_t_lt p len then
              if (uses_separator && negb (is_char (at_ dtstr p) DASH))%bool
              then None
              else
                let p := if uses_separator then S p else p in
                match parse_digits dtstr p 0 1 with
                | None => None
                | Some (_, iso_day) =>
                    _isoweek_to_gregorian year iso_week iso_day
                end
            else _isoweek_to_gregorian year iso_week 1
        end
      else
        match parse_digits dtstr p 0 2 with
        | None => None
        | Some (p, month) =>
            if (uses_separator && negb (is_char (at_ dtstr p) DASH))%bool
            then None
            else
              let p := if uses_separator then S p else p in
              match parse_digits dtstr p 0 2 with
              | None => None
              | Some (_, day) => Some (year, month, day)
              end
        end
  end.

(** *** The time part *)

Definition correction : list Z := [100000; 10000; 1000; 100; 10].

Fixpoint skip_digits (s : string) (p : nat) (fuel : nat) : nat :=
  match fuel with
  | O => p
  | S k => if is_digit (at_ s p) then skip_digits s (S p) k else p
  end.

(** The fraction of a second: up to six digits are read, further digits are
    dropped.  The return code is 1 when the buffer does not end there. *)
Definition parse_fraction (s : string) (p p_end : nat) (h m sec : Z)
  : option (Z * (Z * Z * Z * Z)) :=
  let len_remains := (p_end - p)%nat in
  let to_parse := if (6 <=? len_remains)%nat then 6%nat else len_remains in
  match parse_digits s p 0 to_parse with
  | None => None
  | Some (p, us) =>
      let us := if (to_parse <? 6)%nat
                then us * nth (to_parse - 1) correction 0 else us in
      let p := skip_digits s p (String.length s) in
      Some (if is_char (at_ s p) 0 then 0 else 1, (h, m, sec, us))
  end.

(** One round of the loop over hour, minute and second: how the loop body
    leaves. *)
Inductive loop_exit : Type :=
  | LoopReturn (code : Z)
  | LoopContinue (p : nat) (has_separator : bool)
  | LoopBreak (p : nat).

Definition hms_round (s : string) (i : nat) (p p_end : nat)
    (has_separator : bool) : option (Z * loop_exit) :=
  match parse_digits s p 0 2 with
  | None => None
  | Some (p, v) =>
      let c := at_ s p in
      let p := S p in
      let has_separator :=
        if (i =? 0)%nat then is_char c COLON else has_separator in
      Some (v,
            if (p_end <=? p)%nat then LoopReturn (if is_char c 0 then 0 else 1)
            else if (has_separator && is_char c COLON)%bool
                 then LoopContinue p has_separator
            else if (is_char c DOT || is_char c COMMA)%bool then LoopBreak p
            else if negb has_separator then LoopContinue (p - 1) has_separator
            else LoopReturn (-4))
  end.

(** What follows the loop: the fraction, read at [p]. *)
Definition hms_fraction (s : string) (p p_end : nat) (vals : list Z)
  : Z * (Z * Z * Z * Z) :=
  match parse_fraction s p p_end (nth 0 vals 0) (nth 1 vals 0) (nth 2 vals 0) with
  | None => (-3, (nth 0 vals 0, nth 1 vals 0, nth 2 vals 0, 0))
  | Some r => r
  end.

(** The loop itself, [rounds] components still to read, [vals] the ones
    read so far. *)
Fixpoint hms_loop (s : string) (rounds i : nat) (p p_end : nat)
    (has_separator : bool) (vals : list Z) : Z * (Z * Z * Z * Z) :=
  match rounds with
  | O => hms_fraction s p p_end vals
  | S k =>
      match hms_round s i p p_end has_separator with
      | None => (-3, (nth 0 vals 0, nth 1 vals 0, nth 2 vals 0, 0))
      | Some (v, ex) =>
          let vals := (vals ++ [v])%list in
          match ex with
          | LoopReturn code => (code, (nth 0 vals 0, nth 1 vals 0, nth 2 vals 0, 0))
          | LoopContinue p has_separator =>
              hms_loop s k (S i) p p_end has_separator vals
          | LoopBreak p => hms_fraction s p p_end vals
          end
      end
  end.

(** [HH[:MM[:SS[.fff[fff]]]]] between [p] and [p_end]: a return code
    (negative: malformed; 1: the buffer goes on after the time) and hour,
    minute, second, microsecond. *)
Definition parse_hh_mm_ss_ff (s : string) (p p_end : nat) : Z * (Z * Z * Z * Z) :=
  hms_loop s 3 0 p p_end true [].

(** The first of Z, + and - at or after [pos], searched with a do-while
    loop: the byte at [pos] is looked at even when [pos] is the end. *)
Fixpoint find_tzinfo (s : string) (pos p_end : nat) (fuel : nat) : nat :=
  match fuel with
  | O => pos
  | S k =>
      let c := at_ s pos in
      if (is_char c ZULU || is_char c PLUS || is_char c DASH)%bool then pos
      else if (S pos <? p_end)%nat then find_tzinfo s (S pos) p_end k
      else S pos
  end.

(** The time part with its UTC offset, when there is one, in seconds and
    microseconds. *)
Definition parse_isoformat_time (s : string) (p : nat) (dtlen : nat)
  : option ((Z * Z * Z * Z) * option (Z * Z)) :=
  let p_end := (p + dtlen)%nat in
  let tzinfo_pos := find_tzinfo s p p_end (S dtlen) in
  let '(rv, hmsf) := parse_hh_mm_ss_ff s p tzinfo_pos in
  if rv <? 0 then None
  else if (tzinfo_pos =? p_end)%nat then
    if rv =? 1 then None else Some (hmsf, None)
  else if is_char (at_ s tzinfo_pos) ZULU then
    if is_char (at_ s (S tzinfo_pos)) 0 then Some (hmsf, Some (0, 0)) else None
  else
    let tzsign := if is_char (at_ s tzinfo_pos) DASH then -1 else 1 in
    let '(rv, (tzhour, tzminute, tzsecond, tzmicrosecond)) :=
      parse_hh_mm_ss_ff s (S tzinfo_pos) p_end in
    if rv =? 0
    then Some (hmsf, Some (tzsign * (tzhour * 3600 + tzminute * 60 + tzsecond),
                           tzsign * tzmicrosecond))
    else None.

(** *** The [datetime] object *)

(** [tzinfo] is [None] for a naive datetime, else the fixed offset from UTC
    in microseconds. *)
Record datetime : Type := mk_datetime {
  year : Z; month : Z; day : Z;
  hour : Z; minute : Z; second : Z; microsecond : Z;
  tzinfo : option Z
}.

Definition check_date_args (y m d : Z) : option string :=
  if negb ((MINYEAR <=? y) && (y <=? MAXYEAR))%bool
  then Some "year is out of range"
  else if negb ((1 <=? m) && (m <=? 12))%bool
  then Some "month must be in 1..12"
  else if negb ((1 <=? d) && (d <=? _days_in_month y m))%bool
  then Some "day is out of range for month"
  else None.

Definition check_time_args (h m s us : Z) : option string :=
  if negb ((0 <=? h) && (h <=? 23))%bool then Some "hour must be in 0..23"
  else if negb ((0 <=? m) && (m <=? 59))%bool then Some "minute must be in 0..59"
  else if negb ((0 <=? s) && (s <=? 59))%bool then Some "second must be in 0..59"
  else if negb ((0 <=? us) && (us <=? 999999))%bool
  then Some "microsecond must be in 0..999999"
  else None.

(** The constructor: every field is range checked. *)
Definition new_datetime_ex (y m d hh mm ss us : Z) (tz : option Z)
  : result datetime :=
  match check_date_args y m d with
  | Some msg => Raise (ValueError msg)
  | None =>
      match check_time_args hh mm ss us with
      | Some msg => Raise (ValueError msg)
      | None => Ok (mk_datetime y m d hh mm ss us tz)
      end
  end.

(** A parsed offset becomes a [timezone]: offset 0 seconds is UTC, any
    other must lie strictly between -24 and +24 hours. *)
Definition tzinfo_from_isoformat_results (tz : option (Z * Z))
  : result (option Z) :=
  match tz with
  | None => Ok None
  | Some (tzoffset, tz_useconds) =>
      if tzoffset =? 0 then Ok (Some 0)
      else
        let total := tzoffset * 1000000 + tz_useconds in
        if ((-86400000000 <? total) && (total <? 86400000000))%bool
        then Ok (Some total)
        else Raise (ValueError "offset must be a timedelta strictly between -timedelta(hours=24) and timedelta(hours=24)")
  end.

(** Bytes taken by the UTF-8 character that starts with [c]. *)
Definition utf8_width (c : ascii) : nat :=
  let n := nat_of_ascii c in
  if (n <? 128)%nat then 1%nat
  else if (n / 16 =? 14)%nat then 3%nat
  else if (n / 16 =? 15)%nat then 4%nat
  else 2%nat.

Definition invalid_isoformat : exn := ValueError "Invalid isoformat string".

(** [datetime.fromisoformat(date_string)].  Every failure is a
    [ValueError]; the message of a malformed string is shortened here (the
    interpreter appends the [repr] of the argument). *)
Definition fromisoformat (date_string : string) : result datetime :=
  if (utf8_length date_string <? 7)%nat then Raise invalid_isoformat
  else
    let len := String.length date_string in
    let separator_location := _find_isoformat_datetime_separator date_string len in
    match parse_isoformat_date date_string separator_location with
    | None => Raise invalid_isoformat
    | Some (y, m, d) =>
        let time :=
          if separator_location <? Z.of_nat len then
            let p := Z.to_nat separator_location in
            let p := (p + utf8_width (at_ date_string p))%nat in
            parse_isoformat_time date_string p (len - p)
          else Some ((0, 0, 0, 0), None) in
        match time with
        | None => Raise invalid_isoformat
        | Some ((hh, mm, ss, us), tz) =>
            match tzinfo_from_isoformat_results tz with
            | Raise e => Raise e
            | Ok tzi => new_datetime_ex y m d hh mm ss us tzi
            end
        end
    end.

(** *** [strftime] *)

Definition digit_char (n : Z) : ascii := ascii_of_nat (48 + Z.to_nat n).

(** The decimal digits of a natural number, most significant first. *)
Fixpoint decimal_aux (fuel : nat) (n : Z) (acc : string) : string :=
  match fuel with
  | O => acc
  | S k =>
      let acc := String (digit_char (n mod 10)) acc in
      if n <? 10 then acc else decimal_aux k (n / 10) acc
  end.

Definition decimal (n : Z) : string := decimal_aux 20 n EmptyString.

Fixpoint zeros (n : nat) : string :=
  match n with
  | O => EmptyString
  | S k => String (digit_char 0) (zeros k)
  end.

(** C's [%0wd] for a number that is not negative. *)
Definition zero_filled (w : nat) (n : Z) : string :=
  let s := decimal n in
  zeros (w - String.length s) +:+ s.

(** One conversion.  [%Y] is the one whose result depends on the C library
    the interpreter hands the format to: [pad_year] says whether that
    library fills the year with zeros to four digits (as on macOS and
    Windows) or writes the bare number (as glibc does).  A conversion that
    is not listed is left as it stands. *)
Definition conversion (pad_year : bool) (d : datetime) (c : ascii) : string :=
  if is_char c 89 then (if pad_year then zero_filled 4 (year d) else decimal (year d))
  else if is_char c 109 then zero_filled 2 (month d)
  else if is_char c 100 then zero_filled 2 (day d)
  else if is_char c 72 then zero_filled 2 (hour d)
  else if is_char c 77 then zero_filled 2 (minute d)
  else if is_char c 83 then zero_filled 2 (second d)
  else if is_char c 102 then zero_filled 6 (microsecond d)
  else if is_char c 106 then zero_filled 3 (_days_before_month (year d) (month d) + day d)
  else if is_char c 37 then String c EmptyString
  else String (ascii_of_nat 37) (String c EmptyString).

(** [datetime.strftime(date, format)]. *)
Fixpoint strftime (pad_year : bool) (d : datetime) (format : string) : string :=
  match format with
  | EmptyString => EmptyString
  | String c rest =>
      if is_char c 37 then
        match rest with
        | EmptyString => String c EmptyString
        | String c' rest' => conversion pad_year d c' +:+ strftime pad_year d rest'
        end
      else String c (strftime pad_year d rest)
  end.

End PyDatetime.

(** ** Pydantic: model classes, validation and JSON dumping *)
Module Pydantic.

(** The values a language model's structured answer is made of. *)
Inductive json : Type :=
  | JNull
  | JBool (b : bool)
  | JNum (n : Z)
  | JStr (s : string).

(** The annotations the notebook uses. *)
Inductive annotation : Type :=
  | Str
  | Literal (values : list string)
  | OptionalStr.

(** A declared field: [default] is [None] for a required field. *)
Record FieldInfo : Type := mk_field {
  name : string;
  annot : annotation;
  default : option json;
  description : option string
}.

(** A model class: its fields in declaration order and the functions
    registered with [@field_validator], each under the field it validates. *)
Record model_class : Type := mk_model_class {
  model_fields : list FieldInfo;
  field_validators : list (string * (string -> result string))
}.

(** An instance: the validated value of every field, in declaration order. *)
Definition instance : Type := list (string * json).

Definition getattr (obj : instance) (field : string) : option json :=
  snd <$> List.find (fun kv => String.eqb (fst kv) field) obj.

Definition in_literal (values : list string) (s : string) : bool :=
  existsb (String.eqb s) values.

(** The type check of one annotation: the validated value or the error
    message.  The message for a [Literal] is shortened here (pydantic
    lists the permitted values). *)
Definition validate_annotation (a : annotation) (v : json) : string + json :=
  match a, v with
  | Str, JStr s => inr (JStr s)
  | Str, _ => inl "Input should be a valid string"
  | Literal values, JStr s =>
      if in_literal values s then inr (JStr s)
      else inl "Input should be one of the literal values"
  | Literal _, _ => inl "Input should be one of the literal values"
  | OptionalStr, JNull => inr JNull
  | OptionalStr, JStr s => inr (JStr s)
  | OptionalStr, _ => inl "Input should be a valid string"
  end.

(** The validators registered for [field] run after the type check, in
    order, on a string value.  A [ValueError] becomes an error of the
    field; any other exception leaves the validation as it is. *)
Fixpoint run_validators (field : string)
    (vs : list (string * (string -> result string))) (v : json)
  : result (string + json) :=
  match vs with
  | [] => Ok (inr v)
  | (f, validator) :: rest =>
      if String.eqb f field then
        match v with
        | JStr s =>
            match validator s with
            | Ok s' => run_validators field rest (JStr s')
            | Raise (ValueError msg) => Ok (inl ("Value error, " +:+ msg))
            | Raise e => Raise e
            end
        | _ => run_validators field rest v
        end
      else run_validators field rest v
  end.

(** One field of the input: absent, it takes its default or is reported
    missing. *)
Definition validate_field (cls : model_class) (f : FieldInfo)
    (input : gmap string json) : result (string + json) :=
  match input !! name f with
  | None =>
      match default f with
      | Some d => Ok (inr d)
      | None => Ok (inl "Field required")
      end
  | Some v =>
      match validate_annotation (annot f) v with
      | inl msg => Ok (inl msg)
      | inr v' => run_validators (name f) (field_validators cls) v'
      end
  end.

Fixpoint validate_fields (cls : model_class) (fs : list FieldInfo)
    (input : gmap string json) : result (instance * list (string * string)) :=
  match fs with
  | [] => Ok ([], [])
  | f :: rest =>
      match validate_field cls f input with
      | Raise e => Raise e
      | Ok r =>
          match validate_fields cls rest input with
          | Raise e => Raise e
          | Ok (obj, errors) =>
              match r with
              | inl msg => Ok (obj, (name f, msg) :: errors)
              | inr v => Ok ((name f, v) :: obj, errors)
              end
          end
      end
  end.

(** Building an instance from the input: every field is validated; the errors of all fields are
    raised together as one [ValidationError].  Keys of the input that are
    no field are ignored. *)
Definition model_validate (cls : model_class) (input : gmap string json)
  : result instance :=
  match validate_fields cls (model_fields cls) input with
  | Raise e => Raise e
  | Ok (obj, []) => Ok obj
  | Ok (_, errors) => Raise (ValidationError errors)
  end.

(** *** JSON *)

Definition hex_digit (n : nat) : ascii :=
  if (n <? 10)%nat then ascii_of_nat (48 + n) else ascii_of_nat (87 + n).

(** A JSON string body: quote, backslash and control characters are
    escaped, every other byte is written as it is. *)
Definition json_escape_char (c : ascii) : string :=
  let n := nat_of_ascii c in
  if (n =? 34)%nat then String BACKSLASH (str_of QUOTE)
  else if (n =? 92)%nat then String BACKSLASH (str_of BACKSLASH)
  else if (n =? 8)%nat then String BACKSLASH "b"
  else if (n =? 12)%nat then String BACKSLASH "f"
  else if (n =? 10)%nat then String BACKSLASH "n"
  else if (n =? 13)%nat then String BACKSLASH "r"
  else if (n =? 9)%nat then String BACKSLASH "t"
  else if (n <? 32)%nat
       then String BACKSLASH
              ("u00" +:+ String (hex_digit (n / 16)) (str_of (hex_digit (n mod 16))))
  else str_of c.

Fixpoint json_escape (s : string) : string :=
  match s with
  | EmptyString => EmptyString
  | String c r => json_escape_char c +:+ json_escape r
  end.

Definition json_string (s : string) : string :=
  String QUOTE (json_escape s +:+ str_of QUOTE).

Definition json_value (v : json) : string :=
  match v with
  | JNull => "null"
  | JBool true => "true"
  | JBool false => "false"
  | JNum n =>
      if (n <? 0)%Z then "-" +:+ PyDatetime.decimal (- n) else PyDatetime.decimal n
  | JStr s => json_string s
  end.

Fixpoint spaces (n : nat) : string :=
  match n with
  | O => EmptyString
  | S k => String (ascii_of_nat 32) (spaces k)
  end.

Definition json_member (indent : nat) (kv : string * json) : string :=
  spaces indent +:+ json_string (fst kv) +:+ ": " +:+ json_value (snd kv).

Fixpoint json_members (indent : nat) (obj : instance) : string :=
  match obj with
  | [] => EmptyString
  | [kv] => json_member indent kv
  | kv :: rest =>
      json_member indent kv +:+ "," +:+ str_of LF +:+ json_members indent rest
  end.

(** [obj.model_dump_json(indent=indent)]: one member per line, in field
    order. *)
Definition model_dump_json (indent : nat) (obj : instance) : string :=
  match obj with
  | [] => "{}"
  | _ => "{" +:+ str_of LF +:+ json_members indent obj +:+ str_of LF +:+ "}"
  end.

End Pydantic.

(** ** Python built-ins: the [repr] of a [bytes] object *)
Module PyBytes.

Fixpoint contains (c : ascii) (s : string) : bool :=
  match s with
  | EmptyString => false
  | String c' r => (Ascii.eqb c c' || contains c r)%bool
  end.

(** The quote [repr] wraps the bytes in: an apostrophe, unless the bytes
    hold an apostrophe and no double quote. *)
Definition repr_quote (b : bytes) : ascii :=
  if (contains APOSTROPHE b && negb (contains QUOTE b))%bool
  then QUOTE else APOSTROPHE.

Definition repr_byte (quote : ascii) (c : ascii) : string :=
  let n := nat_of_ascii c in
  if (Ascii.eqb c quote || Ascii.eqb c BACKSLASH)%bool then String BACKSLASH (str_of c)
  else if (n =? 9)%nat then String BACKSLASH "t"
  else if (n =? 10)%nat then String BACKSLASH "n"
  else if (n =? 13)%nat then String BACKSLASH "r"
  else if ((n <? 32)%nat || (127 <=? n)%nat)%bool
       then String BACKSLASH
              ("x" +:+ String (Pydantic.hex_digit (n / 16))
                         (str_of (Pydantic.hex_digit (n mod 16))))
  else str_of c.

Fixpoint repr_body (quote : ascii) (b : bytes) : string :=
  match b with
  | EmptyString => EmptyString
  | String c r => repr_byte quote c +:+ repr_body quote r
  end.

(** [repr(b)], which is also [str(b)] and what an f-string writes for a
    [bytes] value. *)
Definition repr (b : bytes) : string :=
  let quote := repr_quote b in
  "b" +:+ String quote (repr_body quote b +:+ str_of quote).

End PyBytes.

(** ** LangGraph: the graph builder and its runtime *)
Module LangGraph.

Definition START : string := "__start__".
Definition END : string := "__end__".

(** [MessagesState] has the one key [messages]. *)
Definition MessagesState : Type := list message.

(** A node takes the state and returns the update of [messages]. *)
Definition node : Type := MessagesState -> M (list message).

(** The reducer of [messages], on messages built without an identifier,
    as all of the notebook's are: the runtime gives each one a fresh
    identifier, so the messages of an update are appended.  That a message
    takes the place of an earlier one with the same identifier is not
    modelled: [message] has no identifier. *)
Definition add_messages (left right : list message) : list message :=
  left ++ right.

(** The builder: a dictionary of nodes and a set of edges, both empty at
    first. *)
Record StateGraph : Type := mk_StateGraph {
  nodes : gmap string node;
  edges : gset (string * string)
}.

Definition new_StateGraph : StateGraph := mk_StateGraph ∅ ∅.

Definition add_node (name : string) (action : node) (builder : StateGraph)
  : result StateGraph :=
  match nodes builder !! name with
  | Some _ => Raise (ValueError "Node already present")
  | None =>
      if (String.eqb name START || String.eqb name END)%bool
      then Raise (ValueError "Node name is reserved")
      else Ok (mk_StateGraph (<[name := action]> (nodes builder)) (edges builder))
  end.

Definition add_edge (start_key end_key : string) (builder : StateGraph)
  : result StateGraph :=
  if String.eqb start_key END then Raise (ValueError "END cannot be a start node")
  else if String.eqb end_key START then Raise (ValueError "START cannot be an end node")
  else Ok (mk_StateGraph (nodes builder) ({[ (start_key, end_key) ]} ∪ edges builder)).

Record CompiledGraph : Type := mk_CompiledGraph {
  cg_nodes : gmap string node;
  cg_edges : gset (string * string)
}.

Definition known_source (builder : StateGraph) (n : string) : bool :=
  (String.eqb n START || bool_decide (is_Some (nodes builder !! n)))%bool.

Definition known_target (builder : StateGraph) (n : string) : bool :=
  (String.eqb n END || bool_decide (is_Some (nodes builder !! n)))%bool.

(** [builder.compile()]: the edges must join known nodes and one must
    leave [START]. *)
Definition compile (builder : StateGraph) : result CompiledGraph :=
  let es := elements (edges builder) in
  if negb (forallb (fun e => known_source builder (fst e)) es)
  then Raise (ValueError "Found edge starting at unknown node")
  else if negb (forallb (fun e => known_target builder (snd e)) es)
  then Raise (ValueError "Found edge ending at unknown node")
  else if negb (existsb (fun e => String.eqb (fst e) START) es)
  then Raise (ValueError "Graph must have an entrypoint")
  else Ok (mk_CompiledGraph (nodes builder) (edges builder)).

(** The nodes the edges lead to from [srcs]. *)
Definition successors (g : CompiledGraph) (srcs : list string) : list string :=
  remove_dups
    (List.filter (fun n => negb (String.eqb n END))
       (List.map snd
          (List.filter (fun e => existsb (String.eqb (fst e)) srcs)
             (elements (cg_edges g))))).

(** The nodes of one step all read the state the step started with. *)
Fixpoint run_nodes (g : CompiledGraph) (active : list string)
    (state : MessagesState) : M (list (list message)) :=
  match active with
  | [] => ret []
  | n :: rest =>
      match cg_nodes g !! n with
      | None => raise (KeyError n)
      | Some action =>
          perform u <- action state ;;
          perform us <- run_nodes g rest state ;;
          ret (u :: us)
      end
  end.

Definition superstep (g : CompiledGraph) (active : list string)
    (state : MessagesState) : M MessagesState :=
  perform updates <- run_nodes g active state ;;
  ret (foldl add_messages state updates).

(** The steps after the input, each yielding the state it leaves; the
    stream ends when no node is active, at an exception, or at the
    recursion limit. *)
Fixpoint supersteps (g : CompiledGraph) (fuel : nat) (active : list string)
    (state : MessagesState) : list (M MessagesState) :=
  match active with
  | [] => []
  | _ :: _ =>
      match fuel with
      | O => [raise GraphRecursionError]
      | S k =>
          let step := superstep g active state in
          match outcome step with
          | Ok state' => step :: supersteps g k (successors g active) state'
          | Raise _ => [step]
          end
      end
  end.

Definition recursion_limit : nat := 25.

(** [agent.astream(input, stream_mode="values")]: the state after the input
    is applied, then the state after every step.  Each item carries the
    events performed to produce it. *)
Definition astream (g : CompiledGraph) (input : list message)
  : list (M MessagesState) :=
  let state := add_messages [] input in
  ret state :: supersteps g recursion_limit (successors g [START]) state.

Fixpoint drain (items : list (M MessagesState)) (last : MessagesState)
  : M MessagesState :=
  match items with
  | [] => ret last
  | item :: rest => perform chunk <- item ;; drain rest chunk
  end.

(** [agent.ainvoke(input)]: the last state of the stream. *)
Definition ainvoke (g : CompiledGraph) (input : list message) : M MessagesState :=
  drain (astream g input) [].

End LangGraph.

(** ** The notebook's cells *)

Definition result_bind {A B} (r : result A) (k : A -> result B) : result B :=
  match r with
  | Ok a => k a
  | Raise e => Raise e
  end.

Notation "'try' x <- r ;; k" := (result_bind r (fun x => k))
  (at level 10, x name, r at level 99, k at level 200).

(** [l[-1]] *)
Definition last_item {A} (l : list A) : result A :=
  match List.last (List.map Some l) None with
  | Some x => Ok x
  | None => Raise (IndexError "list index out of range")
  end.

(** [d[key]] for a dictionary kept in insertion order. *)
Definition getitem {A} (d : list (string * A)) (key : string) : result A :=
  match List.find (fun kv => String.eqb (fst kv) key) d with
  | Some kv => Ok (snd kv)
  | None => Raise (KeyError key)
  end.

Section Notebook.

(** Whether the C library under the interpreter fills [%Y] with zeros. *)
Variable pad_year : bool.

(** [requests.get(url).content], or the exception [requests.get] raises. *)
Variable requests_get : string -> result bytes.

(** The answer of the Ollama server for a client and its input, as the
    parsed JSON object, or the exception the call raises. *)
Variable ollama : ChatOllama -> list message -> result (gmap string Pydantic.json).

(** *** Model factory *)

Definition OLLAMA_URL : string := "http://192.168.188.24:11434".

(** The default of [get_model]'s second parameter. *)
Definition default_temperature : string := "0.1".

Definition get_model (model_name : string) (temperature : string) : ChatOllama :=
  mk_ChatOllama model_name temperature OLLAMA_URL.

(** *** Structured output *)

(** The validator of [datePublished]: the string is parsed and written
    back with the pattern [%Y-%m-%d]; a [ValueError] of either step is
    replaced by the notebook's own. *)
Definition validate_date (v : string) : result string :=
  match PyDatetime.fromisoformat v with
  | Ok date => Ok (PyDatetime.strftime pad_year date "%Y-%m-%d")
  | Raise (ValueError _) => Raise (ValueError "datePublished is not a valid date")
  | Raise e => Raise e
  end.

(** The values of the [Literal] that annotates [category]. *)
Definition categories : list string :=
  ["AI"; "Hardware"; "Software Development"; "Web Development";
   "Cloud Computing"; "Data Science"; "Machine Learning"; "Cybersecurity";
   "Networking"; "DevOps"; "Mobile Development"; "Game Development";
   "Database Management"; "IT"; "Project Management"].

Definition SummarySchema : Pydantic.model_class :=
  Pydantic.mk_model_class
    [ Pydantic.mk_field "title" Pydantic.Str None
        (Some "Title of the news article");
      Pydantic.mk_field "url" Pydantic.Str None
        (Some "URL that was used to load the news article");
      Pydantic.mk_field "summary" Pydantic.Str None
        (Some "Summary of the news article");
      Pydantic.mk_field "content" Pydantic.Str None
        (Some "Full content of the news article");
      Pydantic.mk_field "category" (Pydantic.Literal categories) None None;
      Pydantic.mk_field "datePublished" Pydantic.Str None
        (Some "Date when the news article was published, format YYYY-MM-DD");
      Pydantic.mk_field "imageUrl" Pydantic.OptionalStr (Some Pydantic.JNull)
        (Some "URL of the image associated with the news article");
      Pydantic.mk_field "source" Pydantic.Str None
        (Some "Publishing source of the news article") ]
    [ ("datePublished", validate_date) ].

(** *** Agentic unit *)

(** [model.with_structured_output(schema)]: invoking it calls the server
    and builds an instance of the schema from the answer.  An answer the
    schema refuses comes out as pydantic's [ValidationError]; a release of
    the client whose output parser wraps that error in an exception of its
    own is not told apart here. *)
Definition with_structured_output (client : ChatOllama)
    (schema : Pydantic.model_class) (input : list message) : M Pydantic.instance :=
  exec emit (ModelInvoke client input) ;;
  perform answer <- lift (ollama client input) ;;
  lift (Pydantic.model_validate schema answer).

(** The content of the first system message. *)
Definition instruction : string :=
  "You are a web page content summarizer. Use the given output structure to summarize the page content.".

(** The node: the last message of the state is taken for the page, the
    model is asked for its summary, and the instance it answers is dumped
    as JSON into one new message. *)
Definition summarize (model : list message -> M Pydantic.instance)
  : LangGraph.node :=
  fun state =>
    exec emit (Print "CHECKPOINT Summarize Node") ;;
    perform html <- lift (last_item state) ;;
    perform response <-
      model [SystemMessage instruction; SystemMessage (content html)] ;;
    ret [AIMessage (Pydantic.model_dump_json 2 response)].

(** The builder as it stands when [compile] is called. *)
Definition article_extractor_builder (model : ChatOllama)
  : result LangGraph.StateGraph :=
  let model := with_structured_output model SummarySchema in
  let builder := LangGraph.new_StateGraph in
  try builder <- LangGraph.add_node "summarize" (summarize model) builder ;;
  LangGraph.add_edge LangGraph.START "summarize" builder.

Definition get_article_extractor (model : ChatOllama)
  : result LangGraph.CompiledGraph :=
  try builder <- article_extractor_builder model ;;
  LangGraph.compile builder.

(** *** Agents with different models *)

(** The dictionary of agents, in insertion order; building it compiles
    one graph per entry. *)
Definition AGENTS : result (list (string * LangGraph.CompiledGraph)) :=
  try qwen <- get_article_extractor (get_model "qwen3:8b" default_temperature) ;;
  try granite <- get_article_extractor (get_model "granite3.2" default_temperature) ;;
  Ok [("qwen3:8b", qwen); ("granite3.2", granite)].

(** *** HTML retrieval *)

(** The f-string of [page2string]: [html] is a [bytes] object, which an
    f-string writes as its [repr]. *)
Definition page_text (url : string) (html : bytes) : string :=
  "Page content for '" +:+ url +:+ "':" +:+ str_of LF +:+ PyBytes.repr html.

Definition page2string (url : string) : M string :=
  exec emit (HttpGet url) ;;
  perform html <- lift (requests_get url) ;;
  ret (page_text url html).

(** *** Batch runner *)

Definition url : string := "http://localhost:8000/page.html".

(** The loop of [stream_and_pretty_print] over the items of the stream,
    from a value of [message_index]; it returns the value the index ends
    with. *)
Fixpoint stream_loop (message_index : nat)
    (stream : list (M LangGraph.MessagesState)) : M nat :=
  match stream with
  | [] => ret message_index
  | item :: rest =>
      perform chunk <- item ;;
      let new_messages := drop message_index chunk in
      let message_index := message_index + length new_messages in
      exec for_each new_messages (fun m => emit (PrettyPrint m)) ;;
      stream_loop message_index rest
  end.

Definition stream_and_pretty_print (agent : LangGraph.CompiledGraph)
    (prompt : message) : M unit :=
  exec stream_loop 1 (LangGraph.astream agent [prompt]) ;;
  ret tt.

(** The cell: the page is loaded once, then every agent of [AGENTS], the
    dictionary the earlier cell built, is run on the one prompt. *)
Definition batch_runner : M unit :=
  perform agents <- lift AGENTS ;;
  perform html <- page2string url ;;
  let prompt := HumanMessage html in
  for_each agents (fun entry =>
    exec emit (Print ("STARTING EXTRACTION WITH '" +:+ fst entry +:+ "' AGENT")) ;;
    stream_and_pretty_print (snd entry) prompt).

(** *** Unit runner *)

(** The tool: the decorator leaves the body as it is. *)
Definition summarize_article (url : string) : M string :=
  perform html <- page2string url ;;
  let prompt := HumanMessage html in
  perform agents <- lift AGENTS ;;
  perform agent <- lift (getitem agents "granite3.2") ;;
  perform response <- LangGraph.ainvoke agent [prompt] ;;
  perform final <- lift (last_item response) ;;
  ret (content final).

End Notebook.

(** ** Vocabulary of the properties *)

(** A string is ISO-8601-parseable when [datetime.fromisoformat] accepts
    it. *)
Definition iso_parseable (v : string) : bool := is_ok (PyDatetime.fromisoformat v).

(** The value of a digit character. *)
Definition digit_val (c : ascii) : Z := (Z.of_nat (nat_of_ascii c) - 48)%Z.

(** Ten characters, the fifth and the eighth a dash. *)
Definition date_string (a b c d e f g h : ascii) : string :=
  String a (String b (String c (String d (String (ascii_of_nat 45)
    (String e (String f (String (ascii_of_nat 45)
      (String g (String h EmptyString))))))))).

Definition digits2 (n : Z) : string :=
  String (PyDatetime.digit_char (n / 10))
    (String (PyDatetime.digit_char (n mod 10)) EmptyString).

Definition digits4 (n : Z) : string :=
  String (PyDatetime.digit_char (n / 1000))
    (String (PyDatetime.digit_char (n / 100 mod 10))
       (String (PyDatetime.digit_char (n / 10 mod 10))
          (String (PyDatetime.digit_char (n mod 10)) EmptyString))).

(** The calendar date of [d] written YYYY-MM-DD. *)
Definition isoformat_date (d : PyDatetime.datetime) : string :=
  digits4 (PyDatetime.year d) +:+ "-" +:+ digits2 (PyDatetime.month d)
  +:+ "-" +:+ digits2 (PyDatetime.day d).

(** The shape YYYY-MM-DD: four digits, a dash, two digits, a dash, two
    digits, and nothing else. *)
Definition is_YYYY_MM_DD (s : string) : bool :=
  match s with
  | String a (String b (String c (String d (String s1
      (String e (String f (String s2 (String g (String h EmptyString))))))))) =>
      (PyDatetime.is_digit a && PyDatetime.is_digit b && PyDatetime.is_digit c
       && PyDatetime.is_digit d && PyDatetime.is_char s1 45
       && PyDatetime.is_digit e && PyDatetime.is_digit f
       && PyDatetime.is_char s2 45
       && PyDatetime.is_digit g && PyDatetime.is_digit h)%bool
  | _ => false
  end.

(** The declaration of the field of a class with a given name. *)
Definition field_named (cls : Pydantic.model_class) (field : string)
  : option Pydantic.FieldInfo :=
  List.find (fun f => String.eqb (Pydantic.name f) field) (Pydantic.model_fields cls).

(** The node [get_article_extractor] registers for a client, and the graph
    it compiles. *)
Definition extractor_node (pad : bool)
    (ollama : ChatOllama -> list message -> result (gmap string Pydantic.json))
    (client : ChatOllama) : LangGraph.node :=
  summarize (with_structured_output ollama client (SummarySchema pad)).

Definition extractor (pad : bool)
    (ollama : ChatOllama -> list message -> result (gmap string Pydantic.json))
    (client : ChatOllama) : LangGraph.CompiledGraph :=
  LangGraph.mk_CompiledGraph
    {[ "summarize" := extractor_node pad ollama client ]}
    {[ (LangGraph.START, "summarize") ]}.

(** What the node sends to the model for a page message. *)
Definition summarize_input (html : message) : list message :=
  [SystemMessage instruction; SystemMessage (content html)].

(** The model's answer read as a [SummarySchema]: the instance, or the
    exception of the call or of the validation. *)
Definition structured_answer (pad : bool)
    (ollama : ChatOllama -> list message -> result (gmap string Pydantic.json))
    (client : ChatOllama) (input : list message) : result Pydantic.instance :=
  try answer <- ollama client input ;;
  Pydantic.model_validate (SummarySchema pad) answer.

Definition answer_message (obj : Pydantic.instance) : message :=
  AIMessage (Pydantic.model_dump_json 2 obj).

Definition CHECKPOINT : event := Print "CHECKPOINT Summarize Node".

Definition STARTING (model : string) : event :=
  Print ("STARTING EXTRACTION WITH '" +:+ model +:+ "' AGENT").

Definition qwen : ChatOllama := get_model "qwen3:8b" default_temperature.
Definition granite : ChatOllama := get_model "granite3.2" default_temperature.

Definition prompt_of (url : string) (body : bytes) : message :=
  HumanMessage (page_text url body).

(** Readings of a trace: the pages fetched, the model calls, the messages
    pretty-printed, each in order. *)
Definition fetches (t : list event) : list string :=
  omap (fun ev => match ev with HttpGet u => Some u | _ => None end) t.

Definition invocations (t : list event) : list (ChatOllama * list message) :=
  omap (fun ev => match ev with ModelInvoke c i => Some (c, i) | _ => None end) t.

Definition printed (t : list event) : list message :=
  omap (fun ev => match ev with PrettyPrint m => Some m | _ => None end) t.

(** The events that go over the network: the page fetch is an HTTP GET, and
    a model call is an HTTP request to the Ollama server at the client's
    [base_url] ([OLLAMA_URL], another machine). *)
Definition network_call (ev : event) : bool :=
  match ev with
  | HttpGet _ | ModelInvoke _ _ => true
  | Print _ | PrettyPrint _ => false
  end.

Definition network_calls (t : list event) : list event :=
  List.filter network_call t.

(** How the source makes each call.  The model is called with
    [await model.ainvoke(...)] inside the coroutine [summarize]: the event
    loop is free while the server answers.  [requests.get(url)] is an
    ordinary call inside the plain function [page2string], which the
    runners call without [await]: it returns when the response has
    arrived, and the event loop waits with it.  [print] and [pretty_print]
    are ordinary calls too. *)
Definition awaited (ev : event) : bool :=
  match ev with
  | ModelInvoke _ _ => true
  | HttpGet _ | Print _ | PrettyPrint _ => false
  end.

(** A run that goes over the network once, with a call that does not
    block. *)
Definition single_nonblocking_network_call (t : list event) : Prop :=
  exists ev, network_calls t = [ev] /\ awaited ev = true.

(** Every list is a prefix of the next one. *)
Fixpoint growing {A} (l : list (list A)) : Prop :=
  match l with
  | a :: (b :: _) as rest => a `prefix_of` b /\ growing rest
  | _ => True
  end.

(** What an item of the stream must be for the loop's bookkeeping to make
    sense: it yields the prompt followed by [tail], and producing it prints
    no message. *)
Definition yields (prompt : message) (item : M LangGraph.MessagesState)
    (tail : list message) : Prop :=
  outcome item = Ok (prompt :: tail) /\ printed (trace item) = [].

Definition printable (c : ascii) : bool :=
  ((32 <=? nat_of_ascii c)%nat && (nat_of_ascii c <? 127)%nat)%bool.

Fixpoint all_printable (s : string) : bool :=
  match s with
  | EmptyString => true
  | String c r => (printable c && all_printable r)%bool
  end.

(** *** A sample world

    A page, a server answer and clients that fail, on which the properties
    are exercised. *)
Definition sample_page : bytes := "<html><p>it's here</p></html>".

Definition refused : exn := OtherError "ConnectionError" "connection refused".

Definition sample_get (u : string) : result bytes :=
  if String.eqb u "http://down.example/" then Raise refused else Ok sample_page.

Definition offline_get (u : string) : result bytes := Raise refused.

Definition sample_answer : gmap string Pydantic.json :=
  list_to_map
    [("title", Pydantic.JStr "A title");
     ("url", Pydantic.JStr "http://example.org/a");
     ("summary", Pydantic.JStr "Short");
     ("content", Pydantic.JStr "Long");
     ("category", Pydantic.JStr "AI");
     ("datePublished", Pydantic.JStr "2024-02-29T10:00:00Z");
     ("source", Pydantic.JStr "Example")].

Definition sample_instance : Pydantic.instance :=
  [("title", Pydantic.JStr "A title");
   ("url", Pydantic.JStr "http://example.org/a");
   ("summary", Pydantic.JStr "Short");
   ("content", Pydantic.JStr "Long");
   ("category", Pydantic.JStr "AI");
   ("datePublished", Pydantic.JStr "2024-02-29");
   ("imageUrl", Pydantic.JNull);
   ("source", Pydantic.JStr "Example")].

Definition sample_ollama (client : ChatOllama) (input : list message)
  : result (gmap string Pydantic.json) := Ok sample_answer.

Definition no_model : exn := OtherError "ResponseError" "model not found".

Definition failing_ollama (client : ChatOllama) (input : list message)
  : result (gmap string Pydantic.json) := Raise no_model.

Definition granite_failing_ollama (client : ChatOllama) (input : list message)
  : result (gmap string Pydantic.json) :=
  if String.eqb (model client) "granite3.2" then Raise no_model else Ok sample_answer.

(** *** Vocabulary of the further properties *)

(** The value [imageUrl] takes for what the answer holds under that key:
    absent or null gives [None], a string gives itself, anything else is
    refused. *)
Definition image_value (v : option Pydantic.json) : option Pydantic.json :=
  match v with
  | None => Some Pydantic.JNull
  | Some Pydantic.JNull => Some Pydantic.JNull
  | Some (Pydantic.JStr s) => Some (Pydantic.JStr s)
  | Some _ => None
  end.

(** The fields of [SummarySchema] declared without a default. *)
Definition required_fields : list string :=
  ["title"; "url"; "summary"; "content"; "category"; "datePublished"; "source"].

Definition field_names (cls : Pydantic.model_class) : list string :=
  List.map Pydantic.name (Pydantic.model_fields cls).

(** The error a field contributes to a [ValidationError], if any. *)
Definition field_error (cls : Pydantic.model_class)
    (input : gmap string Pydantic.json) (f : Pydantic.FieldInfo)
  : option (string * string) :=
  match Pydantic.validate_field cls f input with
  | Ok (inl msg) => Some (Pydantic.name f, msg)
  | _ => None
  end.


(** An item of a stream whose production prints no message. *)
Definition quiet (item : M LangGraph.MessagesState) : Prop :=
  printed (trace item) = [].

Definition hex_val (c : ascii) : option nat :=
  let n := nat_of_ascii c in
  if ((48 <=? n) && (n <=? 57))%nat then Some (n - 48)
  else if ((97 <=? n) && (n <=? 102))%nat then Some (n - 87)
  else None.

(** Reading back the first byte of what [PyBytes.repr_byte] wrote. *)
Definition unrepr_byte (s : string) : option (ascii * string) :=
  match s with
  | EmptyString => None
  | String c rest =>
      if Ascii.eqb c BACKSLASH then
        match rest with
        | EmptyString => None
        | String e rest' =>
            if Ascii.eqb e "x" then
              match rest' with
              | String h1 (String h2 rest'') =>
                  match hex_val h1, hex_val h2 with
                  | Some a, Some b => Some (ascii_of_nat (16 * a + b), rest'')
                  | _, _ => None
                  end
              | _ => None
              end
            else if Ascii.eqb e "t" then Some (ascii_of_nat 9, rest')
            else if Ascii.eqb e "n" then Some (ascii_of_nat 10, rest')
            else if Ascii.eqb e "r" then Some (ascii_of_nat 13, rest')
            else Some (e, rest')
        end
      else Some (c, rest)
  end.

(** [P] holds of the [count] integers from [lo] on. *)
Fixpoint all_from (P : Z -> bool) (lo : Z) (count : nat) : bool :=
  match count with
  | O => true
  | S k => (P lo && all_from P (lo + 1) k)%bool
  end.

(** ** Properties of [datetime.fromisoformat] and [strftime] *)
Section DatetimeFacts.
Import PyDatetime.
Local Open Scope Z_scope.

Lemma fromisoformat_raises_ValueError (v : string) (e : exn) :
  fromisoformat v = Raise e -> exists msg, e = ValueError msg.
Proof.
  unfold fromisoformat, invalid_isoformat, tzinfo_from_isoformat_results, new_datetime_ex.
  intros H.
  repeat (case_match; simplify_eq; eauto).
Qed.

Lemma new_datetime_ex_Ok y m d hh mm ss us tz dt :
  new_datetime_ex y m d hh mm ss us tz = Ok dt ->
  dt = mk_datetime y m d hh mm ss us tz /\
  check_date_args y m d = None /\ check_time_args hh mm ss us = None.
Proof.
  unfold new_datetime_ex. intros H.
  destruct (check_date_args y m d); [discriminate|].
  destruct (check_time_args hh mm ss us); [discriminate|].
  by simplify_eq.
Qed.

Lemma fromisoformat_fields (v : string) (dt : datetime) :
  fromisoformat v = Ok dt ->
  check_date_args (year dt) (month dt) (day dt) = None.
Proof.
  unfold fromisoformat. intros H.
  repeat (case_match; simplify_eq; try discriminate).
  all: match goal with H : new_datetime_ex _ _ _ _ _ _ _ _ = Ok _ |- _ =>
    apply new_datetime_ex_Ok in H; destruct H as (-> & ? & ?); done end.
Qed.

Lemma days_in_month_le y m : _days_in_month y m <= 31.
Proof.
  unfold _days_in_month. case_match; [lia|].
  destruct (Z.to_nat m) as [|[|[|[|[|[|[|[|[|[|[|[|[|n]]]]]]]]]]]]]; simpl; try lia.
  destruct n; simpl; lia.
Qed.

Lemma check_date_args_None y m d :
  check_date_args y m d = None ->
  1 <= y <= 9999 /\ 1 <= m <= 12 /\ 1 <= d <= 31.
Proof.
  unfold check_date_args, MINYEAR, MAXYEAR. intros H.
  repeat (case_match; try discriminate).
  pose proof (days_in_month_le y m).
  repeat match goal with H : negb _ = false |- _ => apply negb_false_iff in H end.
  repeat match goal with H : (_ && _)%bool = true |- _ => apply andb_true_iff in H; destruct H end.
  lia.
Qed.

Lemma is_digit_range c : is_digit c = true -> (48 <= nat_of_ascii c <= 57)%nat.
Proof.
  unfold is_digit. intros H. apply andb_true_iff in H as [H1 H2].
  apply Nat.leb_le in H1, H2. lia.
Qed.

Lemma is_digit_not_char c n :
  is_digit c = true -> (n < 48 \/ 57 < n)%nat -> is_char c n = false.
Proof.
  intros H Hn. apply is_digit_range in H. unfold is_char.
  apply Nat.eqb_neq. lia.
Qed.

Lemma is_digit_utf8 c s :
  is_digit c = true -> utf8_length (String c s) = S (utf8_length s).
Proof.
  intros H. apply is_digit_range in H. cbn [utf8_length].
  destruct (Nat.leb_spec 128 (nat_of_ascii c)); [lia|reflexivity].
Qed.

Lemma parse_digits_S s p var k :
  is_digit (at_ s p) = true ->
  parse_digits s p var (S k)
  = parse_digits s (S p) (var * 10 + digit_val (at_ s p)) k.
Proof. intros H. cbn [parse_digits]. rewrite H. reflexivity. Qed.

Lemma fromisoformat_date_string a b c d e f g h :
  is_digit a = true -> is_digit b = true -> is_digit c = true ->
  is_digit d = true -> is_digit e = true -> is_digit f = true ->
  is_digit g = true -> is_digit h = true ->
  fromisoformat (date_string a b c d e f g h)
  = new_datetime_ex
      (((digit_val a * 10 + digit_val b) * 10 + digit_val c) * 10 + digit_val d)
      (digit_val e * 10 + digit_val f) (digit_val g * 10 + digit_val h)
      0 0 0 0 None.
Proof.
  intros Ha Hb Hc Hd He Hf Hg Hh.
  unfold fromisoformat, date_string.
  rewrite !is_digit_utf8 by done.
  change (utf8_length (String (ascii_of_nat 45) ?s)) with (S (utf8_length s)).
  rewrite !is_digit_utf8 by done.
  change (utf8_length (String (ascii_of_nat 45) ?s)) with (S (utf8_length s)).
  rewrite !is_digit_utf8 by done.
  cbn [utf8_length Nat.ltb Nat.leb].
  set (s := String a _).
  assert (Hsep : _find_isoformat_datetime_separator s (String.length s) = 10).
  { unfold _find_isoformat_datetime_separator. subst s. cbn [String.length Nat.eqb].
    change (at_ _ 4) with (ascii_of_nat 45).
    change (at_ _ 5) with e.
    rewrite (is_digit_not_char e WEEK) by (done || (unfold WEEK; lia)).
    reflexivity. }
  rewrite Hsep.
  assert (Hdate : parse_isoformat_date s 10 =
     Some ((((digit_val a * 10 + digit_val b) * 10 + digit_val c) * 10 + digit_val d),
      (digit_val e * 10 + digit_val f), (digit_val g * 10 + digit_val h))).
  { unfold parse_isoformat_date. subst s.
    repeat (cbn [parse_digits at_ String.get andb negb];
            first [ rewrite Ha | rewrite Hb | rewrite Hc | rewrite Hd
                  | rewrite He | rewrite Hf | rewrite Hg | rewrite Hh
                  | rewrite (is_digit_not_char e WEEK) by (done || (unfold WEEK; lia))
                  | progress change (is_char (ascii_of_nat 45) DASH) with true ]).
    fold (digit_val a) (digit_val b) (digit_val c) (digit_val d)
         (digit_val e) (digit_val f) (digit_val g) (digit_val h).
    do 3 f_equal; lia. }
  rewrite Hdate. subst s. cbn [String.length].
  change (10 <? Z.of_nat 10) with false. cbv iota.
  reflexivity.
Qed.

Lemma digit_char_is_digit k : 0 <= k <= 9 -> is_digit (digit_char k) = true.
Proof.
  intros H.
  assert (k = 0 \/ k = 1 \/ k = 2 \/ k = 3 \/ k = 4 \/ k = 5 \/ k = 6 \/ k = 7
          \/ k = 8 \/ k = 9) as Hk by lia.
  repeat (destruct Hk as [-> | Hk]; [reflexivity|]). by subst.
Qed.

Lemma digit_val_digit_char k : 0 <= k <= 9 -> digit_val (digit_char k) = k.
Proof.
  intros H.
  assert (k = 0 \/ k = 1 \/ k = 2 \/ k = 3 \/ k = 4 \/ k = 5 \/ k = 6 \/ k = 7
          \/ k = 8 \/ k = 9) as Hk by lia.
  repeat (destruct Hk as [-> | Hk]; [reflexivity|]). by subst.
Qed.

Lemma all_from_spec (P : Z -> bool) (count : nat) :
  forall lo n, all_from P lo count = true ->
  lo <= n < lo + Z.of_nat count -> P n = true.
Proof.
  induction count as [|k IH]; intros lo n Hall Hn; [lia|].
  cbn [all_from] in Hall. apply andb_true_iff in Hall as [Hlo Hrest].
  destruct (Z.eq_dec n lo) as [->|Hne]; [done|].
  apply (IH (lo + 1)); [done | lia].
Qed.

Lemma zero_filled_2_all :
  all_from (fun n => String.eqb (zero_filled 2 n) (digits2 n)) 0 100 = true.
Proof. vm_compute. reflexivity. Qed.

Lemma zero_filled_4_all :
  all_from (fun n => String.eqb (zero_filled 4 n) (digits4 n)) 0 (Z.to_nat 10000)
  = true.
Proof. vm_compute. reflexivity. Qed.

Lemma decimal_4_all :
  all_from (fun n => String.eqb (decimal n) (digits4 n)) 1000 (Z.to_nat 9000)
  = true.
Proof. vm_compute. reflexivity. Qed.

Lemma zero_filled_2 n : 0 <= n < 100 -> zero_filled 2 n = digits2 n.
Proof.
  intros H. apply String.eqb_eq.
  apply (all_from_spec _ _ _ n zero_filled_2_all). lia.
Qed.

Lemma zero_filled_4 n : 0 <= n < 10000 -> zero_filled 4 n = digits4 n.
Proof.
  intros H. apply String.eqb_eq.
  apply (all_from_spec _ _ _ n zero_filled_4_all). lia.
Qed.

Lemma decimal_4 n : 1000 <= n < 10000 -> decimal n = digits4 n.
Proof.
  intros H. apply String.eqb_eq.
  apply (all_from_spec _ _ _ n decimal_4_all). lia.
Qed.

Lemma strftime_Ymd pad d :
  strftime pad d "%Y-%m-%d"
  = (if pad then zero_filled 4 (year d) else decimal (year d))
    +:+ "-" +:+ zero_filled 2 (month d) +:+ "-" +:+ zero_filled 2 (day d) +:+ "".
Proof. destruct pad; reflexivity. Qed.

Lemma strftime_isoformat_date pad d :
  check_date_args (year d) (month d) (day d) = None ->
  pad = true \/ 1000 <= year d ->
  strftime pad d "%Y-%m-%d" = isoformat_date d.
Proof.
  intros Hd Hp. apply check_date_args_None in Hd as (Hy & Hm & Hday).
  rewrite strftime_Ymd, !zero_filled_2 by lia. unfold isoformat_date.
  destruct pad.
  - by rewrite zero_filled_4 by lia.
  - destruct Hp as [|Hp]; [done|]. by rewrite decimal_4 by lia.
Qed.

Lemma fromisoformat_isoformat_date d :
  check_date_args (year d) (month d) (day d) = None ->
  fromisoformat (isoformat_date d)
  = Ok (mk_datetime (year d) (month d) (day d) 0 0 0 0 None).
Proof.
  intros Hd. pose proof (check_date_args_None _ _ _ Hd) as (Hy & Hm & Hday).
  unfold isoformat_date, digits4, digits2.
  change (String ?a (String ?b (String ?c (String ?d0 "")))
          +:+ "-" +:+ String ?e (String ?f "") +:+ "-" +:+ String ?g (String ?h ""))
    with (date_string a b c d0 e f g h).
  rewrite fromisoformat_date_string
    by (apply digit_char_is_digit; Z.to_euclidean_division_equations; lia).
  rewrite !digit_val_digit_char by (Z.to_euclidean_division_equations; lia).
  replace (((year d / 1000 * 10 + year d / 100 mod 10) * 10 + year d / 10 mod 10) * 10
           + year d mod 10) with (year d)
    by (Z.to_euclidean_division_equations; lia).
  replace (month d / 10 * 10 + month d mod 10) with (month d)
    by (Z.to_euclidean_division_equations; lia).
  replace (day d / 10 * 10 + day d mod 10) with (day d)
    by (Z.to_euclidean_division_equations; lia).
  unfold new_datetime_ex. rewrite Hd. reflexivity.
Qed.

End DatetimeFacts.

(** ** The [datePublished] validator *)
Section ValidateDate.
Import PyDatetime.
Local Open Scope Z_scope.

Lemma validate_date_Ok pad v d :
  fromisoformat v = Ok d ->
  validate_date pad v = Ok (strftime pad d "%Y-%m-%d").
Proof. intros H. unfold validate_date. by rewrite H. Qed.

Lemma validate_date_Raise pad v :
  iso_parseable v = false ->
  validate_date pad v = Raise (ValueError "datePublished is not a valid date").
Proof.
  unfold iso_parseable, validate_date. intros H.
  destruct (fromisoformat v) as [d|e] eqn:E; [discriminate|].
  by destruct (fromisoformat_raises_ValueError v e E) as [msg ->].
Qed.

Lemma isoformat_date_shape d :
  check_date_args (year d) (month d) (day d) = None ->
  is_YYYY_MM_DD (isoformat_date d) = true.
Proof.
  intros Hd. apply check_date_args_None in Hd as (Hy & Hm & Hday).
  unfold isoformat_date, digits4, digits2.
  cbv [String.append is_YYYY_MM_DD].
  rewrite !digit_char_is_digit by (Z.to_euclidean_division_equations; lia).
  reflexivity.
Qed.

Lemma validate_date_isoformat_date pad v d :
  fromisoformat v = Ok d ->
  pad = true \/ 1000 <= year d ->
  validate_date pad v = Ok (isoformat_date d).
Proof.
  intros Hv Hp. pose proof (fromisoformat_fields v d Hv) as Hd.
  rewrite (validate_date_Ok pad v d Hv). f_equal.
  by apply strftime_isoformat_date.
Qed.

(** X1.  Where the year has four digits, or the C library fills it with
    zeros, the validator returns the calendar date of its input written
    YYYY-MM-DD. *)
Lemma validate_date_normalizes pad v d :
  fromisoformat v = Ok d ->
  pad = true \/ 1000 <= year d ->
  validate_date pad v = Ok (isoformat_date d)
  /\ is_YYYY_MM_DD (isoformat_date d) = true.
Proof.
  intros Hv Hp. split.
  - by apply validate_date_isoformat_date.
  - by apply isoformat_date_shape, (fromisoformat_fields v).
Qed.

Lemma validate_date_normalizes_witness :
  validate_date false "2024-02-29T10:11:12.5+01:00" = Ok "2024-02-29"
  /\ is_YYYY_MM_DD "2024-02-29" = true.
Proof.
  refine (validate_date_normalizes false "2024-02-29T10:11:12.5+01:00"
            (mk_datetime 2024 2 29 10 11 12 500000 (Some 3600000000)) _ _).
  - vm_compute. reflexivity.
  - right. vm_compute. discriminate.
Defined.

(** X2.  Under the same condition the validator is idempotent: its output
    is accepted again and returned unchanged. *)
Lemma validate_date_idempotent_from_1000 pad v d :
  fromisoformat v = Ok d ->
  pad = true \/ 1000 <= year d ->
  exists s, validate_date pad v = Ok s /\ validate_date pad s = Ok s.
Proof.
  intros Hv Hp. pose proof (fromisoformat_fields v d Hv) as Hd.
  exists (isoformat_date d). split.
  - by apply validate_date_isoformat_date.
  - rewrite (validate_date_Ok pad _ _ (fromisoformat_isoformat_date d Hd)).
    f_equal. by apply (strftime_isoformat_date pad (mk_datetime _ _ _ 0 0 0 0 None)).
Qed.

Lemma validate_date_idempotent_from_1000_witness :
  exists s, validate_date true "0999-W01-1" = Ok s /\ validate_date true s = Ok s.
Proof.
  refine (validate_date_idempotent_from_1000 true "0999-W01-1"
            (mk_datetime 998 12 31 0 0 0 0 None) _ _).
  - vm_compute. reflexivity.
  - left. reflexivity.
Defined.

(** What the parser accepts and rejects, on a few strings. *)
Example fromisoformat_examples :
  List.map iso_parseable
    ["2024-02-29"; "20240229"; "2024-W09-4"; "2024-02-29T10:11:12.5+01:00";
     "2024-02-29 10:00Z"; "0999-01-01";
     "2023-02-29"; "2024-2-29"; "999-01-01"; "2024-02-29T"; "yesterday"; ""]
  = [true; true; true; true; true; true;
     false; false; false; false; false; false].
Proof. vm_compute. reflexivity. Qed.

Example validate_date_examples :
  List.map (validate_date false) ["2024-W09-4"; "20240229"; "2024-02-29 10:00Z"]
  = [Ok "2024-02-29"; Ok "2024-02-29"; Ok "2024-02-29"].
Proof. vm_compute. reflexivity. Qed.

(** C1.  The validator is meant to return the date of a parseable string in
    the form YYYY-MM-DD.  On the interpreter the notebook declares, over a
    C library that writes a year below 1000 without leading zeros, it does
    not: the parseable string 0999-01-01 comes back as 999-01-01, which is
    not of that form. *)
Theorem validate_date_year_below_1000 :
  iso_parseable "0999-01-01" = true
  /\ validate_date false "0999-01-01" = Ok "999-01-01"
  /\ is_YYYY_MM_DD "999-01-01" = false.
Proof. vm_compute. auto. Qed.

(** C2.  The validator raises if and only if its input is not
    ISO-8601-parseable, and what it raises is the [ValueError] of the
    notebook: a string that is not parseable gives that error, a parseable
    string gives a value. *)
Theorem validate_date_raises_iff (pad : bool) (v : string) :
  (iso_parseable v = false
   <-> validate_date pad v = Raise (ValueError "datePublished is not a valid date"))
  /\ (iso_parseable v = true <-> is_ok (validate_date pad v) = true)
  /\ (forall e, validate_date pad v = Raise e -> is_value_error (validate_date pad v) = true).
Proof.
  destruct (iso_parseable v) eqn:E.
  - unfold iso_parseable in E.
    destruct (fromisoformat v) as [d|e] eqn:Hv; [|discriminate].
    rewrite (validate_date_Ok pad v d Hv). repeat split; try done.
  - rewrite (validate_date_Raise pad v E). repeat split; try done.
Qed.

(** C9.  The validator is meant to be idempotent.  With a year below 1000
    written without leading zeros it is not: 0999-01-01 is accepted and
    returned as 999-01-01, and 999-01-01 is rejected. *)
Theorem validate_date_twice_below_1000 :
  validate_date false "0999-01-01" = Ok "999-01-01"
  /\ validate_date false "999-01-01"
     = Raise (ValueError "datePublished is not a valid date").
Proof. vm_compute. auto. Qed.

End ValidateDate.

(** ** The schema *)
Section Schema.
Import Pydantic.

(** C3.  [SummarySchema] has exactly the eight fields title, url, summary,
    content, category, datePublished, imageUrl and source; category is a
    literal of fifteen distinct values; imageUrl is the one field with a
    default, which is [None], and the one optional type; and the one
    validator of the class is [validate_date], on datePublished. *)
Theorem SummarySchema_shape (pad : bool) :
  List.map name (model_fields (SummarySchema pad))
  = ["title"; "url"; "summary"; "content"; "category"; "datePublished";
     "imageUrl"; "source"]
  /\ (annot <$> field_named (SummarySchema pad) "category") = Some (Literal categories)
  /\ length categories = 15%nat
  /\ NoDup categories
  /\ Forall (fun f => (default f <> None <-> name f = "imageUrl")
                      /\ (annot f = OptionalStr <-> name f = "imageUrl"))
       (model_fields (SummarySchema pad))
  /\ (default <$> field_named (SummarySchema pad) "imageUrl") = Some (Some JNull)
  /\ field_validators (SummarySchema pad) = [("datePublished", validate_date pad)].
Proof.
  repeat split; try reflexivity.
  - apply (bool_decide_unpack _). vm_compute. reflexivity.
  - repeat constructor; cbn; intros; try done; try discriminate; congruence.
Qed.

End Schema.

(** ** The [repr] of bytes *)
Section BytesFacts.

Lemma all_printable_app s1 s2 :
  all_printable (s1 +:+ s2) = (all_printable s1 && all_printable s2)%bool.
Proof.
  induction s1 as [|c s1 IH]; [reflexivity|].
  change (String c s1 +:+ s2) with (String c (s1 +:+ s2)).
  cbn [all_printable]. rewrite IH. by rewrite andb_assoc.
Qed.

Lemma repr_quote_cases body :
  PyBytes.repr_quote body = APOSTROPHE \/ PyBytes.repr_quote body = QUOTE.
Proof. unfold PyBytes.repr_quote. case_match; auto. Qed.

Lemma repr_byte_printable quote c :
  quote = APOSTROPHE \/ quote = QUOTE ->
  all_printable (PyBytes.repr_byte quote c) = true.
Proof.
  intros [-> | ->]; destruct c as [[] [] [] [] [] [] [] []]; vm_compute; reflexivity.
Qed.

Lemma repr_body_printable quote body :
  quote = APOSTROPHE \/ quote = QUOTE ->
  all_printable (PyBytes.repr_body quote body) = true.
Proof.
  intros Hq. induction body as [|c r IH]; [reflexivity|].
  cbn [PyBytes.repr_body]. by rewrite all_printable_app, repr_byte_printable, IH.
Qed.

Lemma repr_printable body : all_printable (PyBytes.repr body) = true.
Proof.
  unfold PyBytes.repr. pose proof (repr_quote_cases body) as Hq.
  change ("b" +:+ ?s) with (String "b" s).
  cbn [all_printable].
  rewrite all_printable_app, repr_body_printable by done.
  destruct Hq as [-> | ->]; reflexivity.
Qed.

End BytesFacts.

Lemma structured_answer_Ok pad ollama client input answer obj :
  ollama client input = Ok answer ->
  Pydantic.model_validate (SummarySchema pad) answer = Ok obj ->
  structured_answer pad ollama client input = Ok obj.
Proof. intros Hanswer Hobj. unfold structured_answer. by rewrite Hanswer. Qed.

Lemma structured_answer_Raise pad ollama client input e :
  ollama client input = Raise e ->
  structured_answer pad ollama client input = Raise e.
Proof. intros Hanswer. unfold structured_answer. by rewrite Hanswer. Qed.

(** ** The agent graph and the runners *)
Section Runs.
Import LangGraph.

Variable pad : bool.
Variable requests_get : string -> result bytes.
Variable ollama : ChatOllama -> list message -> result (gmap string Pydantic.json).

Local Abbreviation extractor_node := (extractor_node pad ollama).
Local Abbreviation extractor := (extractor pad ollama).
Local Abbreviation structured_answer := (structured_answer pad ollama).

Lemma article_extractor_builder_Ok client :
  article_extractor_builder pad ollama client
  = Ok (mk_StateGraph {[ "summarize" := extractor_node client ]}
                      {[ (START, "summarize") ]}).
Proof.
  unfold article_extractor_builder, add_node, add_edge, new_StateGraph. cbn.
  rewrite lookup_empty. cbn.
  rewrite (right_id_L ∅ (∪)). reflexivity.
Qed.

Lemma get_article_extractor_Ok client :
  get_article_extractor pad ollama client
  = Ok (mk_CompiledGraph {[ "summarize" := extractor_node client ]}
                         {[ (START, "summarize") ]}).
Proof.
  unfold get_article_extractor. rewrite article_extractor_builder_Ok. cbn.
  unfold compile. cbn. rewrite elements_singleton. cbn.
  unfold known_target. cbn. rewrite lookup_singleton_eq. cbn. reflexivity.
Qed.


Lemma successors_START client : successors (extractor client) [START] = ["summarize"].
Proof. vm_compute. reflexivity. Qed.

Lemma successors_summarize client : successors (extractor client) ["summarize"] = [].
Proof. vm_compute. reflexivity. Qed.

Lemma bind_ret_l {A B} (a : A) (k : A -> M B) : bind (ret a) k = k a.
Proof. unfold bind, ret. by destruct (k a). Qed.

Lemma bind_Ok {A B} (t : list event) (a : A) (k : A -> M B) :
  bind (t, Ok a) k = (t ++ trace (k a), outcome (k a)).
Proof. reflexivity. Qed.

Lemma bind_lift {A B} (r : result A) (k : A -> M B) :
  bind (lift r) k = match r with Ok a => k a | Raise e => ([], Raise e) end.
Proof. destruct r; [apply bind_ret_l | reflexivity]. Qed.

Lemma with_structured_output_run client input :
  with_structured_output ollama client (SummarySchema pad) input
  = ([ModelInvoke client input], structured_answer client input).
Proof.
  unfold with_structured_output, structured_answer.
  destruct (ollama client input) as [answer|e]; [|reflexivity].
  cbn. by destruct (Pydantic.model_validate _ answer).
Qed.

Lemma extractor_node_run client state html :
  last_item state = Ok html ->
  extractor_node client state
  = ([Print "CHECKPOINT Summarize Node"; ModelInvoke client (summarize_input html)],
     match structured_answer client (summarize_input html) with
     | Ok obj => Ok [answer_message obj]
     | Raise e => Raise e
     end).
Proof.
  intros Hlast. unfold extractor_node, summarize. rewrite Hlast.
  cbv [bind emit lift ret fst snd app]. fold (summarize_input html).
  rewrite with_structured_output_run.
  by destruct (structured_answer client (summarize_input html)).
Qed.

Lemma superstep_extractor client state :
  superstep (extractor client) ["summarize"] state
  = (trace (extractor_node client state),
     match outcome (extractor_node client state) with
     | Ok u => Ok (state ++ u)
     | Raise e => Raise e
     end).
Proof.
  unfold superstep, run_nodes, extractor. cbn [cg_nodes].
  rewrite lookup_singleton_eq.
  destruct (extractor_node client state) as [t [u|e]]; cbn; [|done].
  by rewrite !app_nil_r.
Qed.

Lemma astream_extractor client input :
  astream (extractor client) input
  = [ret input; superstep (extractor client) ["summarize"] input].
Proof.
  unfold astream. rewrite successors_START. cbn [add_messages app].
  unfold recursion_limit. cbn [supersteps].
  destruct (outcome (superstep (extractor client) ["summarize"] input)); [|done].
  by rewrite successors_summarize.
Qed.


Lemma ainvoke_extractor client prompt :
  ainvoke (extractor client) [prompt]
  = ([CHECKPOINT; ModelInvoke client (summarize_input prompt)],
     match structured_answer client (summarize_input prompt) with
     | Ok obj => Ok [prompt; answer_message obj]
     | Raise e => Raise e
     end).
Proof.
  unfold ainvoke. rewrite astream_extractor, superstep_extractor.
  rewrite (extractor_node_run client [prompt] prompt) by reflexivity.
  cbn [drain trace outcome fst snd]. rewrite bind_ret_l.
  by destruct (structured_answer client (summarize_input prompt)).
Qed.

Lemma AGENTS_Ok :
  AGENTS pad ollama = Ok [("qwen3:8b", extractor qwen); ("granite3.2", extractor granite)].
Proof. unfold AGENTS. by rewrite !get_article_extractor_Ok. Qed.

Lemma page2string_run url :
  page2string requests_get url
  = ([HttpGet url],
     match requests_get url with
     | Ok body => Ok (page_text url body)
     | Raise e => Raise e
     end).
Proof. unfold page2string. by destruct (requests_get url). Qed.

Lemma summarize_article_run url :
  summarize_article pad requests_get ollama url
  = match requests_get url with
    | Raise e => ([HttpGet url], Raise e)
    | Ok body =>
        ([HttpGet url; CHECKPOINT;
          ModelInvoke granite (summarize_input (prompt_of url body))],
         match structured_answer granite (summarize_input (prompt_of url body)) with
         | Ok obj => Ok (Pydantic.model_dump_json 2 obj)
         | Raise e => Raise e
         end)
    end.
Proof.
  unfold summarize_article. rewrite page2string_run, AGENTS_Ok.
  destruct (requests_get url) as [body|e]; [|reflexivity].
  cbv [bind lift fst snd app getitem List.find String.eqb Ascii.eqb Bool.eqb].
  cbn [fst snd]. rewrite ainvoke_extractor. fold (prompt_of url body).
  by destruct (structured_answer granite (summarize_input (prompt_of url body))).
Qed.

Lemma stream_and_pretty_print_run client prompt :
  stream_and_pretty_print (extractor client) prompt
  = ([CHECKPOINT; ModelInvoke client (summarize_input prompt)]
       ++ match structured_answer client (summarize_input prompt) with
          | Ok obj => [PrettyPrint (answer_message obj)]
          | Raise _ => []
          end,
     match structured_answer client (summarize_input prompt) with
     | Ok _ => Ok tt
     | Raise e => Raise e
     end).
Proof.
  unfold stream_and_pretty_print. rewrite astream_extractor, superstep_extractor.
  rewrite (extractor_node_run client [prompt] prompt) by reflexivity.
  cbn [stream_loop trace outcome fst snd]. rewrite bind_ret_l.
  by destruct (structured_answer client (summarize_input prompt)).
Qed.

Lemma batch_runner_run :
  batch_runner pad requests_get ollama
  = match requests_get url with
    | Raise e => ([HttpGet url], Raise e)
    | Ok body =>
        let r1 := stream_and_pretty_print (extractor qwen) (prompt_of url body) in
        let r2 := stream_and_pretty_print (extractor granite) (prompt_of url body) in
        (HttpGet url :: STARTING "qwen3:8b" :: trace r1
           ++ match outcome r1 with
              | Ok _ => STARTING "granite3.2" :: trace r2
              | Raise _ => []
              end,
         match outcome r1 with
         | Ok _ => outcome r2
         | Raise e => Raise e
         end)
    end.
Proof.
  unfold batch_runner. rewrite AGENTS_Ok, bind_lift, page2string_run.
  destruct (requests_get url) as [body|e]; [|reflexivity].
  cbn [for_each fst snd]. rewrite bind_Ok. fold (prompt_of url body).
  destruct (stream_and_pretty_print (extractor qwen) (prompt_of url body))
    as [t1 [[]|e1]];
  destruct (stream_and_pretty_print (extractor granite) (prompt_of url body))
    as [t2 [[]|e2]]; cbn; rewrite ?app_nil_r; reflexivity.
Qed.

(** C4.  When [get_article_extractor] calls [compile], the builder holds
    exactly one node, summarize, and exactly one edge, from START to
    summarize; the compiled graph has that node and that edge. *)
Theorem get_article_extractor_graph (client : ChatOllama) :
  exists builder g,
    article_extractor_builder pad ollama client = Ok builder
    /\ dom (nodes builder) = {[ "summarize" ]}
    /\ edges builder = {[ (START, "summarize") ]}
    /\ size (nodes builder) = 1
    /\ size (edges builder) = 1
    /\ compile builder = Ok g
    /\ get_article_extractor pad ollama client = Ok g
    /\ cg_nodes g = nodes builder
    /\ cg_edges g = edges builder.
Proof.
  eexists _, (extractor client).
  pose proof (get_article_extractor_Ok client) as Hg.
  unfold get_article_extractor in Hg.
  rewrite article_extractor_builder_Ok in Hg |- *. cbn [result_bind] in Hg.
  repeat split; cbn [nodes edges];
    rewrite ?dom_singleton_L, ?map_size_singleton, ?size_singleton; done.
Qed.

(** C5.  Whatever the URL, when the page is fetched and the model's answer
    conforms to [SummarySchema], the final state of the agent is the prompt
    followed by one message, and [summarize_article] returns the content of
    that last message alone: the JSON dump of the schema instance. *)
Theorem summarize_article_returns_json
    (url : string) (body : bytes) (answer : gmap string Pydantic.json)
    (obj : Pydantic.instance) :
  requests_get url = Ok body ->
  ollama granite (summarize_input (prompt_of url body)) = Ok answer ->
  Pydantic.model_validate (SummarySchema pad) answer = Ok obj ->
  outcome (ainvoke (extractor granite) [prompt_of url body])
  = Ok [prompt_of url body; AIMessage (Pydantic.model_dump_json 2 obj)]
  /\ get_article_extractor pad ollama granite = Ok (extractor granite)
  /\ outcome (summarize_article pad requests_get ollama url)
     = Ok (Pydantic.model_dump_json 2 obj).
Proof.
  intros Hget Hanswer Hobj.
  pose proof (structured_answer_Ok pad ollama _ _ _ _ Hanswer Hobj) as Hs.
  rewrite ainvoke_extractor, summarize_article_run, Hget, Hs.
  split; [done|]. split; [apply get_article_extractor_Ok | done].
Qed.

(** C6.  No exception of the fetch or of the model is caught: what
    [requests.get] raises comes out of [page2string], of [summarize_article]
    and of the batch runner, and what the model call or the reading of its
    answer raises comes out of [summarize_article] and of the batch runner,
    whichever agent it happens in. *)
Theorem errors_propagate :
  (forall u e, requests_get u = Raise e ->
     outcome (page2string requests_get u) = Raise e
     /\ outcome (summarize_article pad requests_get ollama u) = Raise e)
  /\ (forall e, requests_get url = Raise e ->
        outcome (batch_runner pad requests_get ollama) = Raise e)
  /\ (forall u body e, requests_get u = Ok body ->
        structured_answer granite (summarize_input (prompt_of u body)) = Raise e ->
        outcome (summarize_article pad requests_get ollama u) = Raise e)
  /\ (forall body e, requests_get url = Ok body ->
        structured_answer qwen (summarize_input (prompt_of url body)) = Raise e ->
        outcome (batch_runner pad requests_get ollama) = Raise e)
  /\ (forall body obj e, requests_get url = Ok body ->
        structured_answer qwen (summarize_input (prompt_of url body)) = Ok obj ->
        structured_answer granite (summarize_input (prompt_of url body)) = Raise e ->
        outcome (batch_runner pad requests_get ollama) = Raise e).
Proof.
  repeat split.
  - rewrite page2string_run. by rewrite H.
  - rewrite summarize_article_run. by rewrite H.
  - intros e H. rewrite batch_runner_run. by rewrite H.
  - intros u body e H Hs. rewrite summarize_article_run. by rewrite H, Hs.
  - intros body e H Hs. rewrite batch_runner_run, H.
    cbv zeta. rewrite !stream_and_pretty_print_run. by rewrite Hs.
  - intros body obj e H Hq Hg. rewrite batch_runner_run, H.
    cbv zeta. rewrite !stream_and_pretty_print_run. by rewrite Hq, Hg.
Qed.

(** C7, amended.  A run of the unit runner or of the batch runner fetches
    the page exactly once, as its first effect and so before any call of a
    model, and that fetch is a call the run waits for.  It is not the only
    network call: after a fetch that succeeded the unit runner calls
    granite3.2 once, and the batch runner calls qwen3:8b once and, when
    that agent has finished, granite3.2 once, every call on the instruction
    and the prompt made from the one fetch.  After a fetch that failed no
    model is called. *)
Theorem one_fetch_then_model_calls (u : string) :
  (exists rest,
     trace (summarize_article pad requests_get ollama u) = HttpGet u :: rest
     /\ fetches rest = [])
  /\ (exists rest,
        trace (batch_runner pad requests_get ollama) = HttpGet url :: rest
        /\ fetches rest = [])
  /\ network_calls (trace (summarize_article pad requests_get ollama u))
     = HttpGet u ::
       match requests_get u with
       | Ok body => [ModelInvoke granite (summarize_input (prompt_of u body))]
       | Raise _ => []
       end
  /\ network_calls (trace (batch_runner pad requests_get ollama))
     = HttpGet url ::
       match requests_get url with
       | Ok body =>
           let input := summarize_input (prompt_of url body) in
           ModelInvoke qwen input ::
           (if is_ok (structured_answer qwen input)
            then [ModelInvoke granite input] else [])
       | Raise _ => []
       end
  /\ List.filter (fun ev => negb (awaited ev))
       (network_calls (trace (summarize_article pad requests_get ollama u)))
     = [HttpGet u]
  /\ List.filter (fun ev => negb (awaited ev))
       (network_calls (trace (batch_runner pad requests_get ollama)))
     = [HttpGet url].
Proof.
  rewrite summarize_article_run, batch_runner_run.
  repeat split.
  - destruct (requests_get u) as [body|e]; eexists; split; reflexivity.
  - destruct (requests_get url) as [body|e]; [|eexists; split; reflexivity].
    cbv zeta. rewrite !stream_and_pretty_print_run.
    eexists. split; [reflexivity|].
    destruct (structured_answer qwen _); destruct (structured_answer granite _);
      reflexivity.
  - by destruct (requests_get u).
  - destruct (requests_get url) as [body|e]; [|reflexivity].
    cbv zeta. rewrite !stream_and_pretty_print_run.
    destruct (structured_answer qwen _); destruct (structured_answer granite _);
      reflexivity.
  - by destruct (requests_get u).
  - destruct (requests_get url) as [body|e]; [|reflexivity].
    cbv zeta. rewrite !stream_and_pretty_print_run.
    destruct (structured_answer qwen _); destruct (structured_answer granite _);
      reflexivity.
Qed.

(** C8.  [page2string] fetches [u] and, when the fetch succeeds, returns
    the header naming [u], a newline, and the [repr] of the response body:
    the letter b, a quote, the escaped bytes and the same quote, all
    printable ASCII, so the bytes literal and not the decoded text. *)
Theorem page2string_format (u : string) (body : bytes) :
  requests_get u = Ok body ->
  trace (page2string requests_get u) = [HttpGet u]
  /\ outcome (page2string requests_get u)
     = Ok ("Page content for '" +:+ u +:+ "':" +:+ str_of LF +:+ PyBytes.repr body)
  /\ (exists quote inner,
        (quote = APOSTROPHE \/ quote = QUOTE)
        /\ PyBytes.repr body = "b" +:+ String quote (inner +:+ str_of quote))
  /\ all_printable (PyBytes.repr body) = true.
Proof.
  intros Hget. rewrite page2string_run, Hget.
  split; [reflexivity|]. split; [reflexivity|]. split.
  - exists (PyBytes.repr_quote body), (PyBytes.repr_body (PyBytes.repr_quote body) body).
    split; [|reflexivity]. unfold PyBytes.repr_quote. case_match; auto.
  - apply repr_printable.
Qed.

End Runs.

(** ** The loop of the batch runner *)
Section StreamLoop.
Import LangGraph.

Lemma printed_app t1 t2 : printed (t1 ++ t2) = printed t1 ++ printed t2.
Proof. apply omap_app. Qed.

Lemma for_each_pretty (l : list message) :
  for_each l (fun m => emit (PrettyPrint m)) = (List.map PrettyPrint l, Ok tt).
Proof.
  induction l as [|m l IH]; [reflexivity|].
  cbn [for_each]. rewrite IH. reflexivity.
Qed.

Lemma printed_pretty (l : list message) : printed (List.map PrettyPrint l) = l.
Proof. induction l as [|m l IH]; [reflexivity|]. cbn. by f_equal. Qed.

Lemma last_cons {A} (a d : A) (l : list A) : List.last (a :: l) d = List.last l a.
Proof.
  revert a d. induction l as [|b l IH]; intros a d; [reflexivity|].
  change (List.last (a :: b :: l) d) with (List.last (b :: l) d).
  by rewrite !(IH b).
Qed.

Lemma growing_take {A} (l : list (list A)) k : growing l -> growing (take k l).
Proof.
  revert k. induction l as [|a l IH]; intros k Hl; [by destruct k|].
  destruct k as [|k]; [done|]. destruct l as [|b l]; [by destruct k|].
  destruct Hl as [Hab Hl]. destruct k as [|k]; [done|].
  split; [done|]. by apply (IH (S k)).
Qed.

Lemma stream_loop_growing (prompt : message) (items : list (M MessagesState))
    (tails : list (list message)) :
  Forall2 (yields prompt) items tails ->
  forall prev, growing (prev :: tails) ->
  outcome (stream_loop (1 + length prev) items)
  = Ok (1 + length (List.last tails prev))
  /\ prev ++ printed (trace (stream_loop (1 + length prev) items))
     = List.last tails prev.
Proof.
  induction 1 as [|item tail items tails [Hitem Hquiet] _ IH]; intros prev Hgrow.
  - cbn. by rewrite app_nil_r.
  - destruct Hgrow as [[ext ->] Hgrow]. specialize (IH _ Hgrow).
    destruct item as [t r]. cbn [outcome trace fst snd] in Hitem, Hquiet. subst r.
    cbn [stream_loop]. rewrite bind_Ok.
    change (drop (1 + length prev) (prompt :: prev ++ ext))
      with (drop (length prev) (prev ++ ext)).
    rewrite drop_app_length, for_each_pretty.
    replace (1 + length prev + length ext) with (1 + length (prev ++ ext))
      by (rewrite length_app; lia).
    rewrite bind_Ok.
    cbn [trace outcome fst snd]. rewrite !printed_app, printed_pretty, Hquiet.
    rewrite last_cons. destruct IH as [IHo IHp]. split; [done|].
    by rewrite <- IHp, <- !app_assoc.
Qed.

(** C10.  While the items of the agent's stream each yield the prompt
    followed by the messages appended so far, the loop of
    [stream_and_pretty_print], which starts its index at 1, has after every
    item an index equal to the number of messages printed plus one, and has
    printed exactly the messages that follow the prompt in the last chunk,
    each once and in order; the prompt, at index 0, is never among them.
    When that covers the whole stream, the function has printed the
    messages that follow the prompt in the final chunk. *)
Theorem stream_and_pretty_print_index
    (agent : CompiledGraph) (prompt : message) (n : nat)
    (tails : list (list message)) :
  Forall2 (yields prompt) (take n (astream agent [prompt])) tails ->
  growing tails ->
  (forall k, k <= n ->
     let run := stream_loop 1 (take k (astream agent [prompt])) in
     outcome run = Ok (1 + length (printed (trace run)))
     /\ printed (trace run) = List.last (take k tails) [])
  /\ (length (astream agent [prompt]) <= n ->
      printed (trace (stream_and_pretty_print agent prompt)) = List.last tails []
      /\ outcome (stream_and_pretty_print agent prompt) = Ok tt).
Proof.
  intros Hitems Hgrow.
  assert (forall k, k <= n ->
            outcome (stream_loop 1 (take k (astream agent [prompt])))
            = Ok (1 + length (List.last (take k tails) []))
            /\ printed (trace (stream_loop 1 (take k (astream agent [prompt]))))
               = List.last (take k tails) []) as Hk.
  { intros k Hkn.
    pose proof (Forall2_take _ _ _ k Hitems) as Hitems'.
    rewrite take_take, Nat.min_l in Hitems' by done.
    apply (stream_loop_growing prompt _ (take k tails) Hitems' []).
    apply (growing_take ([] :: tails) (S k)). destruct tails; [done|].
    split; [apply prefix_nil | done]. }
  split.
  - intros k Hkn. cbv zeta. destruct (Hk k Hkn) as [Ho Hp]. by rewrite Hp.
  - intros Hall. specialize (Hk n (le_n n)).
    pose proof (Forall2_length _ _ _ Hitems) as Hlen.
    rewrite take_ge in Hlen by done.
    rewrite (take_ge (astream agent [prompt])) in Hk by done.
    rewrite (take_ge tails) in Hk by lia.
    destruct Hk as [Ho Hp]. unfold stream_and_pretty_print.
    destruct (stream_loop 1 (astream agent [prompt])) as [t r].
    cbn [outcome trace fst snd] in Ho, Hp. subst r.
    rewrite bind_Ok. cbn [trace outcome fst snd ret].
    by rewrite app_nil_r.
Qed.

End StreamLoop.

(** ** The properties on the sample world *)
Section Samples.
Import LangGraph.

Lemma summarize_article_returns_json_witness :
  outcome (ainvoke (extractor false sample_ollama granite)
             [prompt_of "http://example.org/a" sample_page])
  = Ok [prompt_of "http://example.org/a" sample_page;
        AIMessage (Pydantic.model_dump_json 2 sample_instance)]
  /\ get_article_extractor false sample_ollama granite
     = Ok (extractor false sample_ollama granite)
  /\ outcome (summarize_article false sample_get sample_ollama "http://example.org/a")
     = Ok (Pydantic.model_dump_json 2 sample_instance).
Proof.
  apply (summarize_article_returns_json false sample_get sample_ollama
           "http://example.org/a" sample_page sample_answer sample_instance).
  - reflexivity.
  - reflexivity.
  - vm_compute. reflexivity.
Defined.

Lemma errors_propagate_witness :
  outcome (page2string sample_get "http://down.example/") = Raise refused
  /\ outcome (summarize_article false sample_get sample_ollama "http://down.example/")
     = Raise refused
  /\ outcome (batch_runner false offline_get sample_ollama) = Raise refused
  /\ outcome (summarize_article false sample_get failing_ollama "http://example.org/a")
     = Raise no_model
  /\ outcome (batch_runner false sample_get failing_ollama) = Raise no_model
  /\ outcome (batch_runner false sample_get granite_failing_ollama) = Raise no_model.
Proof.
  destruct (errors_propagate false sample_get sample_ollama) as (Hfetch & _).
  destruct (errors_propagate false offline_get sample_ollama) as (_ & Hbatch & _).
  destruct (errors_propagate false sample_get failing_ollama)
    as (_ & _ & Hunit & Hfirst & _).
  destruct (errors_propagate false sample_get granite_failing_ollama)
    as (_ & _ & _ & _ & Hsecond).
  destruct (Hfetch "http://down.example/" refused eq_refl) as [Hp Hs].
  refine (conj Hp (conj Hs (conj (Hbatch refused eq_refl) (conj
    (Hunit "http://example.org/a" sample_page no_model eq_refl eq_refl) (conj
    (Hfirst sample_page no_model eq_refl eq_refl)
    (Hsecond sample_page sample_instance no_model eq_refl _ eq_refl)))))).
  vm_compute. reflexivity.
Defined.

Lemma page2string_format_witness :
  trace (page2string sample_get "http://example.org/a")
  = [HttpGet "http://example.org/a"]
  /\ outcome (page2string sample_get "http://example.org/a")
     = Ok ("Page content for '" +:+ "http://example.org/a" +:+ "':" +:+ str_of LF
           +:+ PyBytes.repr sample_page)
  /\ (exists quote inner,
        (quote = APOSTROPHE \/ quote = QUOTE)
        /\ PyBytes.repr sample_page = "b" +:+ String quote (inner +:+ str_of quote))
  /\ all_printable (PyBytes.repr sample_page) = true.
Proof.
  exact (page2string_format sample_get "http://example.org/a" sample_page eq_refl).
Defined.

Lemma stream_and_pretty_print_index_witness :
  (forall k, k <= 2 ->
     let run :=
       stream_loop 1
         (take k (astream (extractor false sample_ollama granite)
                    [prompt_of url sample_page])) in
     outcome run = Ok (1 + length (printed (trace run)))
     /\ printed (trace run)
        = List.last (take k [[]; [answer_message sample_instance]]) [])
  /\ (length (astream (extractor false sample_ollama granite)
                [prompt_of url sample_page]) <= 2 ->
      printed (trace (stream_and_pretty_print (extractor false sample_ollama granite)
                        (prompt_of url sample_page)))
      = [answer_message sample_instance]
      /\ outcome (stream_and_pretty_print (extractor false sample_ollama granite)
                    (prompt_of url sample_page)) = Ok tt).
Proof.
  apply (stream_and_pretty_print_index (extractor false sample_ollama granite)
           (prompt_of url sample_page) 2 [[]; [answer_message sample_instance]]).
  - rewrite astream_extractor.
    repeat constructor; vm_compute; reflexivity.
  - split; [apply prefix_nil | exact I].
Defined.

(** When the model fails, the stream stops after the chunk of the input:
    the index invariant holds there and nothing has been printed. *)
Example stream_of_failing_model :
  let stream := astream (extractor false failing_ollama granite)
                  [prompt_of url sample_page] in
  List.map outcome stream = [Ok [prompt_of url sample_page]; Raise no_model]
  /\ stream_loop 1 (take 1 stream) = ([], Ok 1)
  /\ printed (trace (stream_and_pretty_print (extractor false failing_ollama granite)
                       (prompt_of url sample_page))) = [].
Proof. vm_compute. auto. Qed.

(** C7 as it is worded fails.  The unit runner on a page that loads goes
    over the network twice, for the page and for the model, and the first
    of the two calls is the fetch the run waits for; the batch runner goes
    three times; and even a run whose fetch fails, which makes one network
    call only, makes it with a call that blocks. *)
Lemma single_nonblocking_network_call_fails :
  network_calls
    (trace (summarize_article false sample_get sample_ollama "http://example.org/a"))
  = [HttpGet "http://example.org/a";
     ModelInvoke granite
       (summarize_input (prompt_of "http://example.org/a" sample_page))]
  /\ awaited (HttpGet "http://example.org/a") = false
  /\ length (network_calls (trace (batch_runner false sample_get sample_ollama))) = 3%nat
  /\ ~ single_nonblocking_network_call
        (trace (summarize_article false sample_get sample_ollama "http://example.org/a"))
  /\ ~ single_nonblocking_network_call
        (trace (batch_runner false sample_get sample_ollama))
  /\ ~ single_nonblocking_network_call
        (trace (summarize_article false offline_get sample_ollama "http://example.org/a")).
Proof.
  rewrite !summarize_article_run, batch_runner_run.
  change (sample_get "http://example.org/a") with (Ok (A:=bytes) sample_page).
  change (sample_get url) with (Ok (A:=bytes) sample_page).
  cbv beta iota zeta. rewrite !stream_and_pretty_print_run.
  assert (Hany : forall client input,
            structured_answer false sample_ollama client input = Ok sample_instance)
    by (intros; vm_compute; reflexivity).
  rewrite !Hany. cbv [offline_get].
  repeat split; try reflexivity.
  all: intros (ev & Hcalls & Hawaited); cbn in Hcalls; try discriminate.
  injection Hcalls as <-. discriminate.
Qed.

End Samples.

(** ** More on the [datePublished] validator *)
Section ValidateDateMore.
Import PyDatetime.
Local Open Scope Z_scope.






(** X4.  The result depends on the calendar date alone: the time of day
    and the UTC offset of the input are dropped, and the date is not moved
    to another time zone. *)
Theorem validate_date_keeps_date_only (pad : bool) (v1 v2 : string) (d1 d2 : datetime) :
  fromisoformat v1 = Ok d1 -> fromisoformat v2 = Ok d2 ->
  year d1 = year d2 -> month d1 = month d2 -> day d1 = day d2 ->
  validate_date pad v1 = validate_date pad v2.
Proof.
  intros H1 H2 Hy Hm Hd.
  rewrite (validate_date_Ok pad v1 d1 H1), (validate_date_Ok pad v2 d2 H2).
  by rewrite !strftime_Ymd, Hy, Hm, Hd.
Qed.

Lemma validate_date_keeps_date_only_witness :
  validate_date false "2024-02-29T23:30:00-05:00" = validate_date false "2024-W09-4".
Proof.
  apply (validate_date_keeps_date_only false
           "2024-02-29T23:30:00-05:00" "2024-W09-4"
           (mk_datetime 2024 2 29 23 30 0 0 (Some (-18000000000)))
           (mk_datetime 2024 2 29 0 0 0 0 None));
    vm_compute; reflexivity.
Defined.

Lemma parse_digits_None_fromisoformat s :
  parse_digits s 0 0 4 = None -> is_ok (fromisoformat s) = false.
Proof.
  intros H. unfold fromisoformat, parse_isoformat_date. rewrite H.
  by case_match.
Qed.

Lemma decimal_below_1000_all :
  all_from (fun y =>
              if y <? 10 then String.eqb (decimal y) (String (digit_char y) "")
              else if y <? 100 then String.eqb (decimal y) (digits2 y)
              else String.eqb (decimal y)
                     (String (digit_char (y / 100)) (digits2 (y mod 100))))
    0 1000 = true.
Proof. vm_compute. reflexivity. Qed.

Lemma short_year_unparseable y rest :
  0 <= y < 1000 -> is_ok (fromisoformat (decimal y +:+ "-" +:+ rest)) = false.
Proof.
  intros Hy. apply parse_digits_None_fromisoformat.
  pose proof (all_from_spec _ _ _ y decimal_below_1000_all ltac:(lia)) as Hdec.
  cbv beta in Hdec.
  destruct (y <? 10); [|destruct (y <? 100)];
    apply String.eqb_eq in Hdec; rewrite Hdec; unfold digits2;
    cbn [String.append parse_digits at_ String.get];
    repeat (case_match; try reflexivity; try discriminate).
Qed.

(** X5.  The strings the validator returns unchanged are exactly the
    calendar dates written YYYY-MM-DD, of a year from 1000 on when the C
    library does not fill the year with zeros. *)
Theorem validate_date_fixed_points (pad : bool) (s : string) :
  validate_date pad s = Ok s
  <-> exists d,
        check_date_args (year d) (month d) (day d) = None
        /\ (pad = true \/ 1000 <= year d)
        /\ s = isoformat_date d.
Proof.
  split.
  - intros Hs. unfold validate_date in Hs.
    destruct (fromisoformat s) as [d|e] eqn:Hd; [|by destruct e].
    pose proof (fromisoformat_fields s d Hd) as Hfields.
    exists d. split; [done|].
    destruct pad; [split; [by left|]|].
    + rewrite strftime_isoformat_date in Hs by auto. by simplify_eq.
    + destruct (Z.le_gt_cases 1000 (year d)) as [Hy|Hy].
      * split; [by right|].
        rewrite strftime_isoformat_date in Hs by auto. by simplify_eq.
      * exfalso. apply check_date_args_None in Hfields as (Hyear & _).
        rewrite strftime_Ymd in Hs. injection Hs as Hs.
        pose proof (short_year_unparseable (year d)
                      (zero_filled 2 (month d) +:+ "-" +:+ zero_filled 2 (day d) +:+ "")
                      ltac:(lia)) as Hno.
        rewrite Hs, Hd in Hno. discriminate.
  - intros (d & Hfields & Hp & ->).
    rewrite (validate_date_Ok pad _ _ (fromisoformat_isoformat_date d Hfields)).
    f_equal. by apply (strftime_isoformat_date pad (mk_datetime _ _ _ 0 0 0 0 None)).
Qed.

(** X6.  Without zero filling, the output of an accepted input is accepted
    again, and then returned unchanged, exactly when the year is 1000 or
    later. *)
Theorem validate_date_idempotent_iff (v : string) (d : datetime) :
  fromisoformat v = Ok d ->
  (exists s, validate_date false v = Ok s /\ validate_date false s = Ok s)
  <-> 1000 <= year d.
Proof.
  intros Hv. pose proof (fromisoformat_fields v d Hv) as Hfields. split.
  - intros (s & Hs & Hss). rewrite (validate_date_Ok false v d Hv) in Hs.
    destruct (Z.le_gt_cases 1000 (year d)) as [Hy|Hy]; [done|exfalso].
    apply check_date_args_None in Hfields as (Hyear & _).
    rewrite strftime_Ymd in Hs. injection Hs as Hs.
    pose proof (short_year_unparseable (year d)
                  (zero_filled 2 (month d) +:+ "-" +:+ zero_filled 2 (day d) +:+ "")
                  ltac:(lia)) as Hno.
    rewrite Hs in Hno. unfold validate_date in Hss.
    destruct (fromisoformat s) as [d'|e]; [discriminate | by destruct e].
  - intros Hy. exists (isoformat_date d). split.
    + apply validate_date_isoformat_date; auto.
    + rewrite (validate_date_Ok false _ _ (fromisoformat_isoformat_date d Hfields)).
      f_equal. apply (strftime_isoformat_date false (mk_datetime _ _ _ 0 0 0 0 None)); auto.
Qed.

Lemma validate_date_idempotent_iff_witness :
  (exists s, validate_date false "0999-12-31" = Ok s /\ validate_date false s = Ok s)
  <-> 1000 <= 999.
Proof.
  apply (validate_date_idempotent_iff "0999-12-31"
           (mk_datetime 999 12 31 0 0 0 0 None)).
  vm_compute. reflexivity.
Defined.

End ValidateDateMore.

(** ** What the schema accepts and what it rejects *)
Section SchemaMore.
Import Pydantic.

Lemma validate_fields_Ok_nil cls fs input obj :
  validate_fields cls fs input = Ok (obj, [])
  <-> Forall2 (fun f kv => fst kv = name f
                           /\ validate_field cls f input = Ok (inr (snd kv))) fs obj.
Proof.
  revert obj. induction fs as [|f fs IH]; intros obj; cbn [validate_fields].
  - split; [intros [= <-]; constructor | by inversion 1].
  - split.
    + intros H.
      destruct (validate_field cls f input) as [[msg|v]|e] eqn:Hf;
        try discriminate;
        destruct (validate_fields cls fs input) as [[obj' errs]|e'] eqn:Hfs;
        try discriminate.
      injection H as <- ->. constructor; [done|]. by apply IH.
    + intros H. inversion H as [|f' kv fs' obj' Hkv Hrest]; subst.
      destruct kv as [k v], Hkv as [Hk Hv]; cbn [fst snd] in *; subst.
      apply IH in Hrest. by rewrite Hv, Hrest.
Qed.

Lemma model_validate_Ok cls input obj :
  model_validate cls input = Ok obj
  <-> validate_fields cls (model_fields cls) input = Ok (obj, []).
Proof.
  unfold model_validate.
  destruct (validate_fields cls (model_fields cls) input) as [[obj' [|err errs]]|e];
    split; intros H; by simplify_eq.
Qed.

Lemma validate_date_cases pad s :
  (exists s', validate_date pad s = Ok s')
  \/ validate_date pad s = Raise (ValueError "datePublished is not a valid date").
Proof.
  destruct (iso_parseable s) eqn:E.
  - left. unfold iso_parseable in E.
    destruct (PyDatetime.fromisoformat s) as [d|] eqn:Hd; [|done].
    eexists. by apply validate_date_Ok.
  - right. by apply validate_date_Raise.
Qed.

Lemma str_field_Ok pad answer n desc v :
  n <> "datePublished" ->
  validate_field (SummarySchema pad) (mk_field n Str None desc) answer = Ok (inr v)
  <-> exists s, answer !! n = Some (JStr s) /\ v = JStr s.
Proof.
  intros Hn. apply String.eqb_neq in Hn. rewrite String.eqb_sym in Hn.
  unfold validate_field. cbn [name annot default field_validators SummarySchema].
  destruct (answer !! n) as [[| | |s]|]; cbn [validate_annotation run_validators];
    rewrite ?Hn; (split; [intros H | intros (s0 & H0 & ->)]); simplify_eq; eauto.
Qed.

Lemma category_field_Ok pad answer v :
  validate_field (SummarySchema pad)
    (mk_field "category" (Literal categories) None None) answer = Ok (inr v)
  <-> exists s, answer !! "category" = Some (JStr s)
                /\ in_literal categories s = true /\ v = JStr s.
Proof.
  unfold validate_field. cbn [name annot default field_validators SummarySchema].
  destruct (answer !! "category") as [[| | |s]|]; cbn [validate_annotation];
    try (split; [discriminate | by intros (s0 & [=] & _)]).
  destruct (in_literal categories s) eqn:E; cbn -[in_literal]; split.
  - intros [= <-]. eauto.
  - by intros (s0 & [= <-] & _ & ->).
  - discriminate.
  - intros (s0 & [= <-] & Hin & _). congruence.
Qed.

Lemma date_field_Ok pad answer desc v :
  validate_field (SummarySchema pad) (mk_field "datePublished" Str None desc) answer
  = Ok (inr v)
  <-> exists s s', answer !! "datePublished" = Some (JStr s)
                   /\ validate_date pad s = Ok s' /\ v = JStr s'.
Proof.
  unfold validate_field. cbn [name annot default field_validators SummarySchema].
  destruct (answer !! "datePublished") as [[| | |s]|]; cbn;
    try destruct (validate_date_cases pad s) as [[s' Hs] | Hs]; rewrite ?Hs;
    (split; [intros H | intros (s0 & s1 & H0 & H1 & ->)]); simplify_eq; eauto;
    congruence.
Qed.

Lemma image_field_Ok pad answer desc v :
  validate_field (SummarySchema pad)
    (mk_field "imageUrl" OptionalStr (Some JNull) desc) answer = Ok (inr v)
  <-> image_value (answer !! "imageUrl") = Some v.
Proof.
  unfold validate_field. cbn [name annot default field_validators SummarySchema].
  destruct (answer !! "imageUrl") as [[| | |s]|]; cbn; split; intros H; by simplify_eq.
Qed.

Lemma accepted_instance (pad : bool) (answer : gmap string json) (obj : instance) :
  model_validate (SummarySchema pad) answer = Ok obj ->
  exists title url summary content category date normalized image source,
        answer !! "title" = Some (JStr title)
        /\ answer !! "url" = Some (JStr url)
        /\ answer !! "summary" = Some (JStr summary)
        /\ answer !! "content" = Some (JStr content)
        /\ answer !! "category" = Some (JStr category)
        /\ in_literal categories category = true
        /\ answer !! "datePublished" = Some (JStr date)
        /\ validate_date pad date = Ok normalized
        /\ image_value (answer !! "imageUrl") = Some image
        /\ answer !! "source" = Some (JStr source)
        /\ obj = [("title", JStr title); ("url", JStr url);
                  ("summary", JStr summary); ("content", JStr content);
                  ("category", JStr category); ("datePublished", JStr normalized);
                  ("imageUrl", image); ("source", JStr source)].
Proof.
  rewrite model_validate_Ok, validate_fields_Ok_nil.
  cbn [model_fields SummarySchema]. intros H.
  repeat match goal with
         | H : Forall2 _ (_ :: _) _ |- _ =>
             inversion H as [|? [? ?] ? ? [? ?]]; clear H; subst
         | H : Forall2 _ [] _ |- _ => inversion H; clear H; subst
         end.
  cbn [fst snd name] in *. subst.
  repeat match goal with
         | H : validate_field _ (mk_field "category" _ _ _) _ = _ |- _ =>
             apply category_field_Ok in H as (? & ? & ? & ->)
         | H : validate_field _ (mk_field "datePublished" _ _ _) _ = _ |- _ =>
             apply date_field_Ok in H as (? & ? & ? & ? & ->)
         | H : validate_field _ (mk_field "imageUrl" _ _ _) _ = _ |- _ =>
             apply image_field_Ok in H
         | H : validate_field _ (mk_field _ Str _ _) _ = _ |- _ =>
             apply str_field_Ok in H as (? & ? & ->); [|done]
         end.
  do 9 eexists. repeat split; eauto.
Qed.

(** X7.  An answer is accepted by [SummarySchema] exactly when title, url,
    summary, content and source are strings, category is one of the
    fifteen values, datePublished is a string the validator accepts, and
    imageUrl is a string, null or absent.  The instance then holds the
    eight fields in declaration order, the date as the validator returned
    it and an absent imageUrl as [None]. *)
Theorem SummarySchema_accepts (pad : bool) (answer : gmap string json)
    (obj : instance) :
  model_validate (SummarySchema pad) answer = Ok obj
  <-> exists title url summary content category date normalized image source,
        answer !! "title" = Some (JStr title)
        /\ answer !! "url" = Some (JStr url)
        /\ answer !! "summary" = Some (JStr summary)
        /\ answer !! "content" = Some (JStr content)
        /\ answer !! "category" = Some (JStr category)
        /\ in_literal categories category = true
        /\ answer !! "datePublished" = Some (JStr date)
        /\ validate_date pad date = Ok normalized
        /\ image_value (answer !! "imageUrl") = Some image
        /\ answer !! "source" = Some (JStr source)
        /\ obj = [("title", JStr title); ("url", JStr url);
                  ("summary", JStr summary); ("content", JStr content);
                  ("category", JStr category); ("datePublished", JStr normalized);
                  ("imageUrl", image); ("source", JStr source)].
Proof.
  split; [apply accepted_instance|].
  rewrite model_validate_Ok, validate_fields_Ok_nil.
  cbn [model_fields SummarySchema].
  intros (title & url & summary & content & category & date & normalized
          & image & source & Ht & Hu & Hs & Hc & Hcat & Hin & Hd & Hn & Hi & Hsrc & ->).
  repeat constructor; cbn [fst snd];
    first [ apply category_field_Ok | apply date_field_Ok
          | apply image_field_Ok | apply str_field_Ok; [done|] ];
    eauto 10.
Qed.

Lemma validate_fields_errors cls fs input :
  Forall (fun f => is_ok (validate_field cls f input) = true) fs ->
  exists obj,
    validate_fields cls fs input = Ok (obj, omap (field_error cls input) fs).
Proof.
  induction 1 as [|f fs Hf _ [obj IH]]; [by eexists|].
  cbn [validate_fields]. rewrite IH.
  set (errs := omap (field_error cls input) fs).
  assert (omap (field_error cls input) (f :: fs)
          = match validate_field cls f input with
            | Ok (inl msg) => (name f, msg) :: errs
            | _ => errs
            end) as ->.
  { subst errs. cbn [omap list_omap]. unfold field_error at 1.
    by destruct (validate_field cls f input) as [[?|?]|?]. }
  destruct (validate_field cls f input) as [[msg|v]|e] eqn:E;
    [by eexists | by eexists | discriminate].
Qed.

Lemma schema_field_no_raise pad answer f :
  is_ok (validate_field (SummarySchema pad) f answer) = true.
Proof.
  unfold validate_field.
  destruct (answer !! name f) as [v|]; [|by destruct (default f)].
  destruct (validate_annotation (annot f) v) as [msg|v']; [done|].
  cbn [field_validators SummarySchema run_validators].
  destruct (String.eqb "datePublished" (name f)); [|done].
  destruct v' as [| | |s]; try done.
  by destruct (validate_date_cases pad s) as [[s' ->] | ->].
Qed.

Lemma rejected_with pad answer f msg :
  f ∈ model_fields (SummarySchema pad) ->
  validate_field (SummarySchema pad) f answer = Ok (inl msg) ->
  exists errs,
    model_validate (SummarySchema pad) answer = Raise (ValidationError errs)
    /\ (name f, msg) ∈ errs.
Proof.
  intros Hf Hmsg.
  destruct (validate_fields_errors (SummarySchema pad)
              (model_fields (SummarySchema pad)) answer) as [obj Hobj].
  { apply Forall_forall. intros; apply schema_field_no_raise. }
  assert ((name f, msg) ∈ omap (field_error (SummarySchema pad) answer)
                            (model_fields (SummarySchema pad))) as Hin.
  { apply list_elem_of_omap. exists f. split; [done|].
    unfold field_error. by rewrite Hmsg. }
  unfold model_validate. rewrite Hobj.
  destruct (omap (field_error (SummarySchema pad) answer)
              (model_fields (SummarySchema pad))) as [|err errs];
    [by apply elem_of_nil in Hin|].
  eexists. split; [reflexivity | exact Hin].
Qed.

(** X8.  An answer that is not accepted raises a [ValidationError] with at
    least one entry and nothing else.  Each missing required field is
    reported as required, an unparseable datePublished with the
    validator's message, a category outside the fifteen values under
    category; the entries of all failing fields come in the one error. *)
Theorem SummarySchema_rejects (pad : bool) (answer : gmap string json) :
  (forall e, model_validate (SummarySchema pad) answer = Raise e ->
     exists errs, e = ValidationError errs /\ errs <> [])
  /\ (forall field, field ∈ required_fields -> answer !! field = None ->
        exists errs,
          model_validate (SummarySchema pad) answer = Raise (ValidationError errs)
          /\ (field, "Field required") ∈ errs)
  /\ (forall s, answer !! "datePublished" = Some (JStr s) ->
        iso_parseable s = false ->
        exists errs,
          model_validate (SummarySchema pad) answer = Raise (ValidationError errs)
          /\ ("datePublished", "Value error, datePublished is not a valid date") ∈ errs)
  /\ (forall s, answer !! "category" = Some (JStr s) ->
        in_literal categories s = false ->
        exists errs msg,
          model_validate (SummarySchema pad) answer = Raise (ValidationError errs)
          /\ ("category", msg) ∈ errs).
Proof.
  split; [|split; [|split]].
  - intros e He.
    destruct (validate_fields_errors (SummarySchema pad)
                (model_fields (SummarySchema pad)) answer) as [obj Hobj].
    { apply Forall_forall. intros; apply schema_field_no_raise. }
    unfold model_validate in He. rewrite Hobj in He.
    destruct (omap (field_error (SummarySchema pad) answer)
                (model_fields (SummarySchema pad))) as [|err errs];
      [discriminate|].
    injection He as <-. by eexists.
  - intros field Hfield Hnone. unfold required_fields in Hfield.
    repeat (apply elem_of_cons in Hfield as [-> | Hfield];
            [ match goal with
              | |- context [(?n, _) ∈ _] =>
                  match eval cbv in (field_named (SummarySchema pad) n) with
                  | Some ?f => apply (rejected_with pad answer f)
                  end
              end;
              [ cbn [model_fields SummarySchema]; set_solver
              | unfold validate_field; cbn [name default]; by rewrite Hnone ]
            | ]).
    by apply elem_of_nil in Hfield.
  - intros s Hs Hbad.
    apply (rejected_with pad answer
             (mk_field "datePublished" Str None
                (Some "Date when the news article was published, format YYYY-MM-DD"))).
    + cbn [model_fields SummarySchema]. set_solver.
    + unfold validate_field. cbn [name annot]. rewrite Hs. cbn.
      by rewrite (validate_date_Raise pad s Hbad).
  - intros s Hs Hbad.
    destruct (rejected_with pad answer
                (mk_field "category" (Literal categories) None None)
                "Input should be one of the literal values") as (errs & He & Hin).
    + cbn [model_fields SummarySchema]. set_solver.
    + unfold validate_field. cbn [name annot validate_annotation]. rewrite Hs.
      cbn [validate_annotation]. by rewrite Hbad.
    + by exists errs, "Input should be one of the literal values".
Qed.

Lemma validate_field_insert_ne cls f k v input :
  k <> name f ->
  validate_field cls f (<[k:=v]> input) = validate_field cls f input.
Proof. intros Hk. unfold validate_field. by rewrite lookup_insert_ne. Qed.

Lemma validate_fields_insert_ne cls fs k v input :
  k ∉ List.map name fs ->
  validate_fields cls fs (<[k:=v]> input) = validate_fields cls fs input.
Proof.
  induction fs as [|f fs IH]; [done|]. intros Hk.
  cbn [List.map] in Hk. apply not_elem_of_cons in Hk as [Hf Hfs].
  cbn [validate_fields]. by rewrite validate_field_insert_ne, IH.
Qed.

(** X9.  A key of the answer that is no field of the schema is ignored. *)
Theorem SummarySchema_ignores_other_keys (pad : bool) (answer : gmap string json)
    (k : string) (v : json) :
  k ∉ field_names (SummarySchema pad) ->
  model_validate (SummarySchema pad) (<[k:=v]> answer)
  = model_validate (SummarySchema pad) answer.
Proof.
  intros Hk. unfold model_validate.
  by rewrite validate_fields_insert_ne.
Qed.

Lemma SummarySchema_ignores_other_keys_witness :
  model_validate (SummarySchema false) (<["author" := JStr "N. N."]> sample_answer)
  = model_validate (SummarySchema false) sample_answer.
Proof.
  apply (SummarySchema_ignores_other_keys false sample_answer "author" (JStr "N. N.")).
  apply (bool_decide_unpack _). vm_compute. reflexivity.
Defined.

End SchemaMore.

Lemma structured_answer_validation_Raise pad ollama client input answer e :
  ollama client input = Ok answer ->
  Pydantic.model_validate (SummarySchema pad) answer = Raise e ->
  structured_answer pad ollama client input = Raise e.
Proof. intros Hanswer He. unfold structured_answer. by rewrite Hanswer. Qed.

(** ** More on the agent and the runners *)
Section RunsMore.
Import LangGraph.

Variable pad : bool.
Variable requests_get : string -> result bytes.
Variable ollama : ChatOllama -> list message -> result (gmap string Pydantic.json).

Local Abbreviation extractor := (extractor pad ollama).
Local Abbreviation structured_answer := (structured_answer pad ollama).

Lemma last_item_snoc {A} (l : list A) (x : A) : last_item (l ++ [x]) = Ok x.
Proof.
  unfold last_item. rewrite List.map_app. cbn [List.map].
  by rewrite List.last_last.
Qed.

(** X10.  The node reads the last message of the state and nothing before
    it; on a state without messages it raises [IndexError] once the
    checkpoint line is printed, and the model is not called. *)
Theorem summarize_reads_last_message (model : list message -> M Pydantic.instance) :
  summarize model [] = ([CHECKPOINT], Raise (IndexError "list index out of range"))
  /\ forall earlier html,
       summarize model (earlier ++ [html]) = summarize model [html].
Proof.
  split; [reflexivity|]. intros earlier html.
  unfold summarize. by rewrite last_item_snoc.
Qed.

(** X11.  Invoking the compiled agent on one message, the input both
    runners give it, runs the node once: one checkpoint line, one model
    call on that message, and the final state is the message followed by
    the one answer message, or the exception of the call.  On no message at
    all it raises [IndexError] and calls no model. *)
Theorem ainvoke_appends_answer (client : ChatOllama) (prompt : message) :
  get_article_extractor pad ollama client = Ok (extractor client)
  /\ ainvoke (extractor client) [prompt]
     = ([CHECKPOINT; ModelInvoke client (summarize_input prompt)],
        match structured_answer client (summarize_input prompt) with
        | Ok obj => Ok [prompt; answer_message obj]
        | Raise e => Raise e
        end)
  /\ ainvoke (extractor client) []
     = ([CHECKPOINT], Raise (IndexError "list index out of range")).
Proof.
  split; [apply get_article_extractor_Ok|]. split.
  - unfold ainvoke. rewrite astream_extractor, superstep_extractor.
    rewrite (extractor_node_run pad ollama client [prompt] prompt) by reflexivity.
    cbn [drain trace outcome fst snd]. rewrite bind_ret_l.
    destruct (structured_answer client (summarize_input prompt)); [|done].
    by rewrite bind_Ok.
  - unfold ainvoke. rewrite astream_extractor, superstep_extractor. reflexivity.
Qed.

(** X12.  The whole behaviour of the batch cell: the fetch; then, if it
    succeeded, the agents in the order of the dictionary, each announced,
    run and its answer printed; the first agent whose model fails ends the
    cell with that exception, and the agents after it are neither
    announced nor called. *)
Theorem batch_runner_behaviour :
  batch_runner pad requests_get ollama
  = match requests_get url with
    | Raise e => ([HttpGet url], Raise e)
    | Ok body =>
        let input := summarize_input (prompt_of url body) in
        match structured_answer qwen input with
        | Raise e =>
            ([HttpGet url; STARTING "qwen3:8b"; CHECKPOINT; ModelInvoke qwen input],
             Raise e)
        | Ok first =>
            match structured_answer granite input with
            | Raise e =>
                ([HttpGet url; STARTING "qwen3:8b"; CHECKPOINT;
                  ModelInvoke qwen input; PrettyPrint (answer_message first);
                  STARTING "granite3.2"; CHECKPOINT; ModelInvoke granite input],
                 Raise e)
            | Ok second =>
                ([HttpGet url; STARTING "qwen3:8b"; CHECKPOINT;
                  ModelInvoke qwen input; PrettyPrint (answer_message first);
                  STARTING "granite3.2"; CHECKPOINT; ModelInvoke granite input;
                  PrettyPrint (answer_message second)],
                 Ok tt)
            end
        end
    end.
Proof.
  rewrite batch_runner_run. destruct (requests_get url) as [body|e]; [|done].
  cbv zeta. rewrite !stream_and_pretty_print_run.
  destruct (structured_answer qwen _); [|done].
  by destruct (structured_answer granite _).
Qed.

(** X13.  [summarize_article] raises only what the fetch or the model
    raised (the dictionary lookup and the last-message index never fail);
    it calls the granite model once when the fetch succeeded and no model
    when it failed, and it pretty-prints nothing. *)
Theorem summarize_article_behaviour (u : string) :
  (forall e, outcome (summarize_article pad requests_get ollama u) = Raise e ->
     requests_get u = Raise e
     \/ exists body, requests_get u = Ok body
          /\ structured_answer granite (summarize_input (prompt_of u body)) = Raise e)
  /\ invocations (trace (summarize_article pad requests_get ollama u))
     = match requests_get u with
       | Ok body => [(granite, summarize_input (prompt_of u body))]
       | Raise _ => []
       end
  /\ printed (trace (summarize_article pad requests_get ollama u)) = []
  /\ (forall e, requests_get u = Raise e ->
        trace (summarize_article pad requests_get ollama u) = [HttpGet u]).
Proof.
  rewrite summarize_article_run.
  destruct (requests_get u) as [body|e0]; cbn [outcome trace fst snd].
  - repeat split; try done.
    intros e He. right. exists body. split; [done|].
    by destruct (structured_answer granite _); simplify_eq.
  - repeat split; try done. intros e [= <-]. by left.
Qed.

(** X14.  Every call of a model made by either runner goes through a
    client built by [get_model]: the Ollama address of the notebook, the
    default temperature, and one of the two model names of [AGENTS]. *)
Theorem model_calls_use_configured_clients (u : string) :
  Forall (fun call =>
            base_url (fst call) = OLLAMA_URL
            /\ temperature (fst call) = "0.1"
            /\ model (fst call) ∈ ["qwen3:8b"; "granite3.2"])
    (invocations (trace (summarize_article pad requests_get ollama u))
     ++ invocations (trace (batch_runner pad requests_get ollama))).
Proof.
  rewrite summarize_article_run, batch_runner_run.
  destruct (requests_get u) as [body|e], (requests_get url) as [body'|e'];
    cbv zeta; rewrite ?stream_and_pretty_print_run;
    repeat match goal with
           | |- context [structured_answer ?c ?i] => destruct (structured_answer c i)
           end;
    cbn; repeat constructor; set_solver.
Qed.

(** X15.  Run on an agent of [get_article_extractor],
    [stream_and_pretty_print] prints the answer message of the model when
    the answer is accepted and nothing when the call fails; what it prints
    is an AI message, never the prompt. *)
Theorem stream_and_pretty_print_prints_answer (client : ChatOllama) (prompt : message) :
  get_article_extractor pad ollama client = Ok (extractor client)
  /\ printed (trace (stream_and_pretty_print (extractor client) prompt))
     = match structured_answer client (summarize_input prompt) with
       | Ok obj => [answer_message obj]
       | Raise _ => []
       end
  /\ outcome (stream_and_pretty_print (extractor client) prompt)
     = match structured_answer client (summarize_input prompt) with
       | Ok _ => Ok tt
       | Raise e => Raise e
       end
  /\ Forall (fun m => type m = ai)
       (printed (trace (stream_and_pretty_print (extractor client) prompt))).
Proof.
  split; [apply get_article_extractor_Ok|].
  rewrite stream_and_pretty_print_run. cbn [trace outcome fst snd].
  destruct (structured_answer client (summarize_input prompt)); repeat split;
    repeat constructor.
Qed.

(** X16.  What [summarize_article] returns is the dump of an instance the
    schema accepted: one with the eight fields, whose datePublished is
    what the validator returned for the date of the model's answer. *)
Theorem summarize_article_returns_validated (u : string) (s : string) :
  outcome (summarize_article pad requests_get ollama u) = Ok s ->
  exists body answer obj date normalized,
    requests_get u = Ok body
    /\ ollama granite (summarize_input (prompt_of u body)) = Ok answer
    /\ Pydantic.model_validate (SummarySchema pad) answer = Ok obj
    /\ s = Pydantic.model_dump_json 2 obj
    /\ List.map fst obj = field_names (SummarySchema pad)
    /\ answer !! "datePublished" = Some (Pydantic.JStr date)
    /\ validate_date pad date = Ok normalized
    /\ Pydantic.getattr obj "datePublished" = Some (Pydantic.JStr normalized).
Proof.
  rewrite summarize_article_run.
  destruct (requests_get u) as [body|e]; [|discriminate]. cbn [outcome snd].
  destruct (ollama granite (summarize_input (prompt_of u body))) as [answer|e] eqn:Ha;
    [|by rewrite (structured_answer_Raise pad ollama _ _ _ Ha)].
  destruct (Pydantic.model_validate (SummarySchema pad) answer) as [obj|e] eqn:Hobj.
  - rewrite (structured_answer_Ok pad ollama _ _ _ _ Ha Hobj). intros [= <-].
    destruct (accepted_instance pad answer obj Hobj)
      as (t & u' & sm & c & cat & date & normalized & img & src
          & _ & _ & _ & _ & _ & _ & Hd & Hn & _ & _ & ->).
    eexists body, answer, _, date, normalized. repeat split; done.
  - intros H. exfalso. revert H.
    assert (structured_answer granite (summarize_input (prompt_of u body)) = Raise e)
      as -> by (by apply (structured_answer_validation_Raise pad ollama _ _ answer)).
    discriminate.
Qed.

End RunsMore.

Lemma summarize_article_returns_validated_witness :
  exists body answer obj date normalized,
    sample_get "http://example.org/a" = Ok body
    /\ sample_ollama granite (summarize_input (prompt_of "http://example.org/a" body))
       = Ok answer
    /\ Pydantic.model_validate (SummarySchema false) answer = Ok obj
    /\ Pydantic.model_dump_json 2 sample_instance = Pydantic.model_dump_json 2 obj
    /\ List.map fst obj = field_names (SummarySchema false)
    /\ answer !! "datePublished" = Some (Pydantic.JStr date)
    /\ validate_date false date = Ok normalized
    /\ Pydantic.getattr obj "datePublished" = Some (Pydantic.JStr normalized).
Proof.
  apply (summarize_article_returns_validated false sample_get sample_ollama
           "http://example.org/a" (Pydantic.model_dump_json 2 sample_instance)).
  vm_compute. reflexivity.
Defined.


(** ** The page can be read back from the prompt *)
Section ReprMore.

Lemma string_append_assoc (a b c : string) : (a +:+ b) +:+ c = a +:+ (b +:+ c).
Proof.
  induction a as [|x a IH]; [done|].
  change (String x ((a +:+ b) +:+ c) = String x (a +:+ (b +:+ c))).
  by rewrite IH.
Qed.

Lemma string_append_inv_head (a b c : string) : a +:+ b = a +:+ c -> b = c.
Proof.
  induction a as [|x a IH]; [done|].
  change (String x (a +:+ b) = String x (a +:+ c) -> b = c).
  intros [= H]. by apply IH.
Qed.

Lemma unrepr_repr_byte quote c rest :
  quote = APOSTROPHE \/ quote = QUOTE ->
  unrepr_byte (PyBytes.repr_byte quote c +:+ rest) = Some (c, rest).
Proof.
  intros [-> | ->]; destruct c as [[] [] [] [] [] [] [] []]; reflexivity.
Qed.

Lemma repr_byte_head quote c :
  quote = APOSTROPHE \/ quote = QUOTE ->
  exists c0 rest, PyBytes.repr_byte quote c = String c0 rest /\ c0 <> quote.
Proof.
  intros [-> | ->]; destruct c as [[] [] [] [] [] [] [] []];
    eexists _, _; (split; [reflexivity | discriminate]).
Qed.

Lemma repr_body_inj quote :
  quote = APOSTROPHE \/ quote = QUOTE ->
  forall b1 b2 r1 r2,
    PyBytes.repr_body quote b1 +:+ String quote r1
    = PyBytes.repr_body quote b2 +:+ String quote r2 ->
    b1 = b2.
Proof.
  intros Hq. induction b1 as [|c1 b1 IH]; intros [|c2 b2] r1 r2 H.
  - done.
  - exfalso. cbn [PyBytes.repr_body] in H. rewrite string_append_assoc in H.
    destruct (repr_byte_head quote c2 Hq) as (c0 & rest & Hc & Hne).
    rewrite Hc in H. cbn in H. by injection H as -> _.
  - exfalso. cbn [PyBytes.repr_body] in H. rewrite string_append_assoc in H.
    destruct (repr_byte_head quote c1 Hq) as (c0 & rest & Hc & Hne).
    rewrite Hc in H. cbn in H. by injection H as <- _.
  - cbn [PyBytes.repr_body] in H. rewrite !string_append_assoc in H.
    apply (f_equal unrepr_byte) in H.
    rewrite !unrepr_repr_byte in H by done. injection H as -> H.
    f_equal. by apply (IH _ _ _ H).
Qed.

Lemma repr_inj b1 b2 : PyBytes.repr b1 = PyBytes.repr b2 -> b1 = b2.
Proof.
  unfold PyBytes.repr. intros H.
  change ("b" +:+ ?s) with (String "b" s) in H.
  injection H as Hq H. rewrite <- Hq in H.
  apply (repr_body_inj _ (repr_quote_cases b1) _ _ _ _ H).
Qed.

(** X17.  [page2string] loses nothing of the fetch: two fetches whose
    results come out of it the same were the same, page bytes or
    exception.  In particular the text it returns determines the bytes of
    the page. *)
Theorem page2string_keeps_the_page (get1 get2 : string -> result bytes) (u : string) :
  outcome (page2string get1 u) = outcome (page2string get2 u) ->
  get1 u = get2 u.
Proof.
  rewrite !page2string_run. cbn [outcome snd].
  destruct (get1 u) as [b1|e1], (get2 u) as [b2|e2]; intros H; try discriminate.
  - assert (page_text u b1 = page_text u b2) as H' by congruence.
    clear H. rename H' into H. unfold page_text in H.
    apply (string_append_inv_head "Page content for '") in H.
    apply (string_append_inv_head u) in H.
    apply (string_append_inv_head "':") in H.
    apply (string_append_inv_head (str_of LF)) in H.
    f_equal. by apply repr_inj.
  - done.
Qed.

Lemma page2string_keeps_the_page_witness :
  sample_get "http://example.org/a" = sample_get "http://example.org/b".
Proof.
  apply (page2string_keeps_the_page
           sample_get (fun _ => sample_get "http://example.org/b")
           "http://example.org/a").
  vm_compute. reflexivity.
Defined.

End ReprMore.

(** ** More on the loop of the batch runner *)
Section LoopMore.
Import LangGraph.

(** X18.  Whatever the chunks of the stream are, when the loop ends
    normally its index has grown by exactly the number of messages it
    printed. *)
Theorem stream_loop_counts_what_it_prints (items : list (M MessagesState)) :
  Forall quiet items ->
  forall i j,
    outcome (stream_loop i items) = Ok j ->
    j = i + length (printed (trace (stream_loop i items))).
Proof.
  induction 1 as [|[t r] items Hq _ IH]; intros i j Hj.
  - cbn in Hj. injection Hj as <-. cbn. lia.
  - cbn [stream_loop] in *. destruct r as [chunk|e]; [|discriminate].
    rewrite bind_Ok, for_each_pretty, bind_Ok in Hj |- *.
    cbn [trace outcome fst snd] in Hj |- *.
    unfold quiet in Hq. cbn [trace fst] in Hq.
    rewrite !printed_app, printed_pretty, Hq. cbn [app].
    rewrite length_app. apply IH in Hj. lia.
Qed.

(** X19.  An exception raised while the stream produces an item ends the
    loop with that exception: the items after it are not consumed and
    nothing more is printed. *)
Theorem stream_loop_stops_at_exception
    (before after : list (M MessagesState)) (t : list event) (e : exn) (i : nat) :
  Forall (fun item => is_ok (outcome item) = true) before ->
  outcome (stream_loop i (before ++ (t, Raise e) :: after)) = Raise e
  /\ trace (stream_loop i (before ++ (t, Raise e) :: after))
     = trace (stream_loop i before) ++ t.
Proof.
  intros Hok. revert i. induction Hok as [|[t0 r] before Hr _ IH]; intros i.
  - done.
  - destruct r as [chunk|e0]; [|discriminate].
    cbn [app stream_loop]. rewrite !bind_Ok, for_each_pretty, !bind_Ok.
    cbn [trace outcome fst snd].
    destruct (IH (i + length (drop i chunk))) as [IHo IHt].
    split; [done|]. by rewrite IHt, !app_assoc.
Qed.

(** A chunk that is not longer than the index prints nothing and leaves
    the index where it is. *)
Lemma stream_loop_short_chunk (chunk : MessagesState) (rest : list (M MessagesState))
    (i : nat) :
  length chunk <= i ->
  stream_loop i (ret chunk :: rest) = stream_loop i rest.
Proof.
  intros Hlen. cbn [stream_loop]. rewrite bind_ret_l.
  rewrite drop_ge by done. cbn [for_each length]. rewrite bind_ret_l.
  by rewrite Nat.add_0_r.
Qed.

Lemma stream_loop_counts_what_it_prints_witness :
  2 = 1 + length (printed (trace (stream_loop 1
                     (astream (extractor false sample_ollama granite)
                        [prompt_of url sample_page])))).
Proof.
  apply (stream_loop_counts_what_it_prints
           (astream (extractor false sample_ollama granite) [prompt_of url sample_page])).
  - rewrite astream_extractor. repeat constructor.
  - vm_compute. reflexivity.
Defined.

Lemma stream_loop_stops_at_exception_witness :
  outcome (stream_loop 1 ([ret [prompt_of url sample_page]]
                          ++ ([CHECKPOINT], Raise no_model) :: [ret []]))
  = Raise no_model
  /\ trace (stream_loop 1 ([ret [prompt_of url sample_page]]
                           ++ ([CHECKPOINT], Raise no_model) :: [ret []]))
     = trace (stream_loop 1 [ret [prompt_of url sample_page]]) ++ [CHECKPOINT].
Proof.
  apply (stream_loop_stops_at_exception [ret [prompt_of url sample_page]] [ret []]
           [CHECKPOINT] no_model 1).
  repeat constructor.
Defined.

End LoopMore.
